(** * Sales analytics reports of [server.js]

    A shallow embedding of the four report handlers of [server.js]
    ([/api/sales-analytics/time-series], [/users], [/groups], [/trends]):
    the JavaScript that reads the request and shapes the response, and the
    SQL text each handler sends to the store, given a list semantics
    (joins, [GROUP BY], aggregates, [ORDER BY], [LIMIT], casts).

    Conventions of the embedding
    - a [numeric] value is an exact rational ([Q]); the store's rounding of
      an unconstrained quotient and JavaScript's reading of a decimal string
      into a double are not modelled, the cast [::numeric(10,2)] is;
    - a [DATE] is a day number (days since 1970-01-01), as the store keeps
      it; the session time zone is UTC;
    - a query parameter of the request is an optional string, absent when
      [req.query] does not have it; [startDate] and [endDate] are taken as
      the dates they spell, an empty [endDate] counting as absent;
    - an SQL error aborts the query; the handler's [catch] turns it into
      status 500. *)

From Stdlib Require Import ZArith QArith Lia List Bool String Ascii.
From Stdlib Require Import Sorted Permutation.
Import ListNotations.
Open Scope string_scope.
Open Scope Z_scope.

Set Implicit Arguments.

(** ** JavaScript values *)

Module JS.

(** A JavaScript number as the handlers use it: a finite value or [NaN]. *)
Inductive number :=
| NaN
| Num (q : Q).

(** [x || 0] on a number: [NaN] and zero are falsy. *)
Definition or_zero (x : number) : number :=
  match x with
  | NaN => Num 0
  | Num q => if Qeq_bool q 0 then Num 0 else Num q
  end.

(** [parseFloat] of a column the driver returns as a decimal string, or
    of [null]: [parseFloat(null)] is [NaN]. *)
Definition parseFloat (col : option Q) : number :=
  match col with
  | None => NaN
  | Some q => Num q
  end.

(** How [res.json] writes a number: [NaN] becomes [null] ([None]). *)
Definition to_json (x : number) : option Q :=
  match x with
  | NaN => None
  | Num q => Some q
  end.

(** Truthiness of a request parameter: absent and the empty string are
    falsy. *)
Definition truthy (p : option string) : bool :=
  match p with
  | None => false
  | Some s => negb (s =? "")%string
  end.

Definition is_space (c : ascii) : bool :=
  let n := nat_of_ascii c in
  ((n =? 32) || (n =? 9) || (n =? 10) || (n =? 11) || (n =? 12) || (n =? 13))%nat.

Fixpoint trim_start (s : string) : string :=
  match s with
  | String c s' => if is_space c then trim_start s' else s
  | EmptyString => s
  end.

(** Value of a character as a digit, when it is one in base 16. *)
Definition digit_value (c : ascii) : option Z :=
  let n := Z.of_nat (nat_of_ascii c) in
  if (48 <=? n) && (n <=? 57) then Some (n - 48)
  else if (97 <=? n) && (n <=? 102) then Some (n - 87)
  else if (65 <=? n) && (n <=? 70) then Some (n - 55)
  else None.

(** The longest prefix of digits of the radix, read left to right;
    [None] when that prefix is empty. *)
Fixpoint digits (radix : Z) (acc : option Z) (s : string) : option Z :=
  match s with
  | EmptyString => acc
  | String c s' =>
      match digit_value c with
      | Some d =>
          if d <? radix
          then digits radix (Some (match acc with
                                   | Some a => a * radix + d
                                   | None => d
                                   end)) s'
          else acc
      | None => acc
      end
  end.


(** [parseInt(s)] with no radix argument: leading white space and a sign
    are skipped, a [0x]/[0X] prefix selects base 16, and the longest
    prefix of digits is read; [None] stands for [NaN]. White space is the
    ASCII one, and the integer read is kept exact: beyond
    [MAX_SAFE_INTEGER] JavaScript keeps the nearest double instead. *)
Definition parseInt (s : string) : option Z :=
  let s1 := trim_start s in
  let '(sign, s2) :=
    match s1 with
    | String "-" r => (-1, r)
    | String "+" r => (1, r)
    | _ => (1, s1)
    end in
  let '(radix, s3) :=
    match s2 with
    | String "0" (String "x" r) => (16, r)
    | String "0" (String "X" r) => (16, r)
    | _ => (10, s2)
    end in
  match digits radix None s3 with
  | Some n => Some (sign * n)
  | None => None
  end.

End JS.

(** ** Calendar dates and [DATE_TRUNC] *)

Module Date.

(** A [DATE] value: the number of days since 1970-01-01. *)
Definition date := Z.

(** Day number of the civil date [y]-[m]-[d] (proleptic Gregorian
    calendar); the year is counted from March so that the leap day comes
    last. *)
Definition days_from_civil (y m d : Z) : date :=
  let y' := if m <=? 2 then y - 1 else y in
  let era := y' / 400 in
  let yoe := y' - era * 400 in
  let mp := if 2 <? m then m - 3 else m + 9 in
  let doy := (153 * mp + 2) / 5 + d - 1 in
  let doe := yoe * 365 + yoe / 4 - yoe / 100 + doy in
  era * 146097 + doe - 719468.

(** The position of a day number in the calendar counted from March 1st
    of year 0: the 400-year era, the year, day and month within it. *)
Definition era (z : date) : Z := (z + 719468) / 146097.

Definition day_of_era (z : date) : Z := z + 719468 - era z * 146097.

Definition year_of_era (z : date) : Z :=
  let doe := day_of_era z in
  (doe - doe / 1460 + doe / 36524 - doe / 146096) / 365.

Definition day_of_year (z : date) : Z :=
  let yoe := year_of_era z in
  day_of_era z - (365 * yoe + yoe / 4 - yoe / 100).

Definition month_from_march (z : date) : Z := (5 * day_of_year z + 2) / 153.

(** Civil date (year, month, day) of a day number. *)
Definition civil_from_days (z : date) : Z * Z * Z :=
  let mp := month_from_march z in
  let d := day_of_year z - (153 * mp + 2) / 5 + 1 in
  let m := if mp <? 10 then mp + 3 else mp - 9 in
  ((year_of_era z + era z * 400) + (if m <=? 2 then 1 else 0), m, d).

(** The units [validIntervals] lists. *)
Inductive unit_ := Day | Week | Month | Quarter | Year.

(** The unit a field name of [DATE_TRUNC] denotes, among the five the
    handlers can splice into the query text. *)
Definition unit_of_string (s : string) : option unit_ :=
  if (s =? "day")%string then Some Day
  else if (s =? "week")%string then Some Week
  else if (s =? "month")%string then Some Month
  else if (s =? "quarter")%string then Some Quarter
  else if (s =? "year")%string then Some Year
  else None.

(** [DATE_TRUNC(unit, d)]: the first day of the bucket of [d]. Weeks start
    on Monday; day 0 is a Thursday. *)
Definition date_trunc (u : unit_) (z : date) : date :=
  match u with
  | Day => z
  | Week => z - (z + 3) mod 7
  | Month => let '(y, m, _) := civil_from_days z in days_from_civil y m 1
  | Quarter =>
      let '(y, m, _) := civil_from_days z in
      days_from_civil y (3 * ((m - 1) / 3) + 1) 1
  | Year => let '(y, _, _) := civil_from_days z in days_from_civil y 1 1
  end.

(** *** The calendar as a sequence of months

    Used to reason about [date_trunc]: months are numbered from March of
    year 0, and every bucket of a month, a quarter or a year starts on the
    first day of some month. *)

(** Days from March 1st of year 0 to March 1st of year [Y]. *)
Definition year_start (Y : Z) : Z := 365 * Y + Y / 4 - Y / 100 + Y / 400.

(** Days from March 1st to the first day of the month [mp] months later. *)
Definition month_start (mp : Z) : Z := (153 * mp + 2) / 5.

Definition month_index (z : date) : Z :=
  12 * (year_of_era z + era z * 400) + month_from_march z.

(** Day number of the first day of the month of index [i]. *)
Definition first_day (i : Z) : date :=
  year_start (i / 12) + month_start (i mod 12) - 719468.

(** The month a bucket starts in, from the month of a day in it. *)
Definition bucket_index (u : unit_) (i : Z) : Z :=
  match u with
  | Quarter => 3 * ((i - 1) / 3) + 1
  | Year => 12 * ((i - 10) / 12) + 10
  | _ => i
  end.

End Date.

(** ** The fragment of SQL the handlers use *)

Module SQL.

(** The errors the four queries can raise. *)
Inductive error :=
| division_by_zero
| numeric_value_out_of_range
| invalid_text_representation
| invalid_row_count_in_limit
| invalid_parameter_value.

Inductive result (A : Type) :=
| Ok (a : A)
| Err (e : error).

Arguments Err {A} e.

Definition bind {A B} (r : result A) (k : A -> result B) : result B :=
  match r with
  | Ok a => k a
  | Err e => Err e
  end.

Notation "x <- r ;; k" := (bind r (fun x => k))
  (at level 61, r at next level, right associativity).

(** Evaluation of a select list over the rows, left to right; the first
    error aborts the query. *)
Fixpoint mapM {A B} (f : A -> result B) (l : list A) : result (list B) :=
  match l with
  | [] => Ok []
  | a :: l' => b <- f a ;; bs <- mapM f l' ;; Ok (b :: bs)
  end.

(** *** Values *)

(** [q] in hundredths, rounded half away from zero. *)
Definition round_hundredths (q : Q) : Z :=
  let n := Qnum q in
  let d := Zpos (Qden q) in
  Z.sgn n * ((200 * Z.abs n + d) / (2 * d)).

(** [q::numeric(10,2)]: two decimals, at most eight digits before the
    point. *)
Definition cast_numeric_10_2 (q : Q) : result Q :=
  let h := round_hundredths q in
  if Z.abs h <? 10 ^ 10 then Ok (h # 100) else Err numeric_value_out_of_range.

(** A cast of [NULL] is [NULL]. *)
Definition cast_null_10_2 (x : option Q) : result (option Q) :=
  match x with
  | None => Ok None
  | Some q => r <- cast_numeric_10_2 q ;; Ok (Some r)
  end.

(** [a / b] on numerics: strict in [NULL], an error on a zero divisor. *)
Definition div (a b : option Q) : result (option Q) :=
  match a, b with
  | Some x, Some y =>
      if Qeq_bool y 0 then Err division_by_zero else Ok (Some (x / y)%Q)
  | _, _ => Ok None
  end.

(** *** Aggregates, over the non-null values of a group *)

Definition non_null {A} (l : list (option A)) : list A :=
  flat_map (fun x => match x with Some a => [a] | None => [] end) l.

Definition total (l : list Q) : Q := fold_right Qplus 0%Q l.

Definition COUNT {A} (l : list (option A)) : Z :=
  Z.of_nat (List.length (non_null l)).

Definition SUM (l : list (option Q)) : option Q :=
  match non_null l with
  | [] => None
  | v => Some (total v)
  end.

Definition AVG (l : list (option Q)) : option Q :=
  match non_null l with
  | [] => None
  | v => Some (total v / inject_Z (Z.of_nat (List.length v)))%Q
  end.

Definition COUNT_DISTINCT (l : list (option Z)) : Z :=
  Z.of_nat (List.length (nodup Z.eq_dec (non_null l))).

(** *** Joins *)

Definition join {A B} (on : A -> B -> bool) (l : list A) (r : list B)
  : list (A * B) :=
  flat_map (fun a => map (fun b => (a, b)) (filter (on a) r)) l.

Definition left_join {A B} (on : A -> B -> bool) (l : list A) (r : list B)
  : list (A * option B) :=
  flat_map (fun a =>
              match filter (on a) r with
              | [] => [(a, None)]
              | bs => map (fun b => (a, Some b)) bs
              end) l.

(** *** Grouping and ordering *)

Section Grouping.

Variables (R K : Type).
Variable K_dec : forall x y : K, {x = y} + {x <> y}.
Variable key : R -> K.

(** [GROUP BY key]: one group per distinct key, holding the rows of that
    key. *)
Definition group_by (rows : list R) : list (K * list R) :=
  map (fun k => (k, filter (fun r => if K_dec (key r) k then true else false) rows))
      (nodup K_dec (map key rows)).

End Grouping.

Section Ordering.

Variable A : Type.
Variable before : A -> A -> bool.

Fixpoint insert (x : A) (l : list A) : list A :=
  match l with
  | [] => [x]
  | y :: l' => if before x y then x :: y :: l' else y :: insert x l'
  end.

(** [ORDER BY]: a stable sort; rows that compare equal keep the order the
    grouping produced them in (SQL leaves that order open). *)
Fixpoint order_by (l : list A) : list A :=
  match l with
  | [] => []
  | x :: l' => insert x (order_by l')
  end.

End Ordering.

(** [ASC] on dates. *)
Definition asc (a b : Z) : bool := a <=? b.

(** [DESC NULLS LAST] on a nullable numeric: [a] may come before [b]. *)
Definition desc_nulls_last (a b : option Q) : bool :=
  match a, b with
  | _, None => true
  | None, Some _ => false
  | Some x, Some y => Qle_bool y x
  end.

(** [LIMIT n]. *)
Definition LIMIT {A} (n : Z) (l : list A) : result (list A) :=
  if n <? 0 then Err invalid_row_count_in_limit
  else Ok (firstn (Z.to_nat n) l).

End SQL.

(** ** The record store *)

Module Store.

Import Date.

(** Modelled from the spec: the tables [sales], [users], [groups] and
    [user_groups] are created by [seed.js], which is not among the
    sources; their columns are the ones the queries of [server.js] name,
    typed as section 3 of the specification describes the entities (an
    amount is a decimal, no column is nullable). *)
Record sale := { s_id : Z; s_user_id : Z; s_amount : Q; s_date : date }.

Record user := { u_id : Z; u_name : string; u_role : string }.

Record group := { g_id : Z; g_name : string }.

Record user_group := { ug_user_id : Z; ug_group_id : Z }.

Record database := {
  sales : list sale;
  users : list user;
  groups : list group;
  user_groups : list user_group
}.

(** [d BETWEEN lo AND hi]. *)
Definition between (d lo hi : date) : bool := (lo <=? d) && (d <=? hi).

End Store.

(** ** What every handler shares *)

Module Http.

(** What a handler sends: [res.json({ data })], or
    [res.status(code).json({ error })]. *)
Inductive response (R : Type) :=
| json (data : list R)
| status (code : Z) (error : string).

Arguments status {R} code error.

(** The [try]/[catch] around each handler body. *)
Definition respond {Row R} (result : SQL.result (list Row)) (f : Row -> R)
  : response R :=
  match result with
  | SQL.Ok rows => json (map f rows)
  | SQL.Err _ => status 500 "Internal server error"
  end.


(** [startDate = '2021-01-01'] in the destructuring of [req.query]. *)
Definition default_startDate : Date.date := Date.days_from_civil 2021 1 1.

Definition start_of (startDate : option Date.date) : Date.date :=
  match startDate with
  | Some d => d
  | None => default_startDate
  end.

(** [endDate || new Date().toISOString().split('T')[0]]; the clock is an
    argument of every handler. *)
Definition end_of (endDate : option Date.date) (today : Date.date) : Date.date :=
  match endDate with
  | Some d => d
  | None => today
  end.

Definition validIntervals : list string :=
  ["day"; "week"; "month"; "quarter"; "year"].

Definition includes (l : list string) (s : string) : bool :=
  existsb (String.eqb s) l.

(** [validIntervals.includes(interval) ? interval : 'month'], with the
    default [interval = 'month'] of the destructuring. *)
Definition timeInterval (interval : option string) : string :=
  let interval := match interval with Some i => i | None => "month" end in
  if includes validIntervals interval then interval else "month".

(** The unit of [DATE_TRUNC('${timeInterval}', ...)]; the store rejects a
    unit it does not know. *)
Definition trunc_unit (timeInterval : string) : SQL.result Date.unit_ :=
  match Date.unit_of_string timeInterval with
  | Some u => SQL.Ok u
  | None => SQL.Err SQL.invalid_parameter_value
  end.

End Http.

(** ** 1. [GET /api/sales-analytics/time-series] *)

Module TimeSeries.

Import Date Store SQL Http.

(** [req.query]. *)
Record query := {
  startDate : option date;
  endDate : option date;
  interval : option string;
  userId : option string;
  groupId : option string;
  metric : option string
}.

(** A bound parameter: a date, or the number [parseInt] returned ([None]
    is [NaN]). *)
Inductive param :=
| PDate (d : date)
| PNumber (n : option Z).

(** The conditions pushed on [whereClauses]; the argument is the index
    after [$]. *)
Inductive clause :=
| date_ge (i : nat)      (* s.date >= $i *)
| date_le (i : nat)      (* s.date <= $i *)
| user_id_eq (i : nat)   (* s.user_id = $i *)
| group_id_eq (i : nat). (* ug.group_id = $i *)

(** [parseInt(p)] of a request parameter. *)
Definition parseInt (p : option string) : option Z :=
  match p with
  | Some s => JS.parseInt s
  | None => None
  end.

(** The filter the handler builds: [whereClauses] and [params]. *)
Definition buildFilter (q : query) (today : date) : list clause * list param :=
  let whereClauses := [date_ge 1; date_le 2] in
  let params := [PDate (start_of (startDate q)); PDate (end_of (endDate q) today)] in
  let '(whereClauses, params) :=
    if JS.truthy (userId q)
    then ((whereClauses ++ [user_id_eq (List.length params + 1)])%list,
          (params ++ [PNumber (parseInt (userId q))])%list)
    else (whereClauses, params) in
  if JS.truthy (groupId q)
  then ((whereClauses ++ [group_id_eq (List.length params + 1)])%list,
        (params ++ [PNumber (parseInt (groupId q))])%list)
  else (whereClauses, params).

(** A row of [FROM sales s JOIN users u ... (JOIN user_groups ug ...)]. *)
Definition joined := (sale * user * option user_group)%type.

Definition date_param (params : list param) (i : nat) : result date :=
  match nth_error params (i - 1) with
  | Some (PDate d) => Ok d
  | _ => Err invalid_text_representation
  end.

(** An integer column takes an integer: the text of [NaN] is refused. The
    width of the column, which the schema fixes, is not checked. *)
Definition int_param (params : list param) (i : nat) : result Z :=
  match nth_error params (i - 1) with
  | Some (PNumber (Some n)) => Ok n
  | _ => Err invalid_text_representation
  end.

(** A clause with its parameter bound, as a test on a joined row. *)
Definition bind_clause (params : list param) (c : clause)
  : result (joined -> bool) :=
  match c with
  | date_ge i =>
      d <- date_param params i ;;
      Ok (fun r : joined => d <=? s_date (fst (fst r)))
  | date_le i =>
      d <- date_param params i ;;
      Ok (fun r : joined => s_date (fst (fst r)) <=? d)
  | user_id_eq i =>
      n <- int_param params i ;;
      Ok (fun r : joined => s_user_id (fst (fst r)) =? n)
  | group_id_eq i =>
      n <- int_param params i ;;
      Ok (fun r : joined =>
            match snd r with
            | Some ug => ug_group_id ug =? n
            | None => false
            end)
  end.

(** [FROM sales s JOIN users u ON s.user_id = u.id], and
    [JOIN user_groups ug ON u.id = ug.user_id] when [groupId] is set. *)
Definition from (db : database) (with_groups : bool) : list joined :=
  let su := join (fun s u => s_user_id s =? u_id u) (sales db) (users db) in
  if with_groups
  then map (fun r => (fst r, Some (snd r)))
           (join (fun r ug => u_id (snd r) =? ug_user_id ug) su (user_groups db))
  else map (fun r => (r, None)) su.

(** A row of the result. *)
Module Row.
Record t := {
  period : date;
  sale_count : Z;
  total_revenue : option Q;
  avg_revenue : option Q;
  active_users : Z
}.
End Row.

(** The select list over one group. *)
Definition select (g : date * list joined) : result Row.t :=
  let amounts := map (fun r : joined => Some (s_amount (fst (fst r)))) (snd g) in
  avg <- cast_null_10_2 (AVG amounts) ;;
  Ok {| Row.period := fst g;
        Row.sale_count := COUNT (map (fun r : joined => Some (s_id (fst (fst r)))) (snd g));
        Row.total_revenue := SUM amounts;
        Row.avg_revenue := avg;
        Row.active_users :=
          COUNT_DISTINCT (map (fun r : joined => Some (s_user_id (fst (fst r)))) (snd g)) |}.

(** The query text, run on [params]. *)
Definition run_query (db : database) (timeInterval : string) (with_groups : bool)
  (whereClauses : list clause) (params : list param) : result (list Row.t) :=
  u <- trunc_unit timeInterval ;;
  tests <- mapM (bind_clause params) whereClauses ;;
  let rows := filter (fun r => forallb (fun t => t r) tests) (from db with_groups) in
  let grouped := group_by Z.eq_dec (fun r : joined => date_trunc u (s_date (fst (fst r)))) rows in
  selected <- mapM select grouped ;;
  Ok (order_by (fun a b => asc (Row.period a) (Row.period b)) selected).

(** An emitted row; a field the requested metric leaves out is [None]. *)
Record output := {
  period : date;
  totalRevenue : option JS.number;
  averageRevenue : option JS.number;
  saleCount : option Z;
  activeUsers : option Z
}.

Definition metric_is (metric : string) (names : list string) : bool :=
  includes names metric.

(** [result.rows.map(row => ...)]; the counts come back as decimal
    strings and [parseInt] reads them back. *)
Definition responseData (metric : string) (row : Row.t) : output :=
  {| period := Row.period row;
     totalRevenue :=
       if metric_is metric ["all"; "totalRevenue"]
       then Some (JS.parseFloat (Row.total_revenue row)) else None;
     averageRevenue :=
       if metric_is metric ["all"; "avgRevenue"]
       then Some (JS.parseFloat (Row.avg_revenue row)) else None;
     saleCount :=
       if metric_is metric ["all"; "saleCount"]
       then Some (Row.sale_count row) else None;
     activeUsers :=
       if metric_is metric ["all"] then Some (Row.active_users row) else None |}.

Definition metric_of (q : query) : string :=
  match metric q with
  | Some m => m
  | None => "all"
  end.

(** The handler. *)
Definition handler (db : database) (today : date) (q : query) : response output :=
  let '(whereClauses, params) := buildFilter q today in
  respond
    (run_query db (timeInterval (interval q)) (JS.truthy (groupId q)) whereClauses params)
    (responseData (metric_of q)).

End TimeSeries.

(** ** 2. [GET /api/sales-analytics/users] *)

Module Users.

Import Date Store SQL Http.

(** [req.query]. *)
Record query := {
  startDate : option date;
  endDate : option date;
  limit : option string
}.

(** [parseInt(limit)], with the default [limit = 10]. *)
Definition parseInt_limit (limit : option string) : option Z :=
  match limit with
  | Some s => JS.parseInt s
  | None => Some 10
  end.

(** A row of [FROM users u LEFT JOIN sales s ... LEFT JOIN user_groups ug
    ... LEFT JOIN groups g ...]. *)
Definition joined := (user * option sale * option user_group * option group)%type.

Definition j_user (r : joined) : user := fst (fst (fst r)).
Definition j_sale (r : joined) : option sale := snd (fst (fst r)).
Definition j_group (r : joined) : option group := snd r.

Definition from (db : database) (lo hi : date) : list joined :=
  let us :=
    left_join (fun u s => (u_id u =? s_user_id s) && between (s_date s) lo hi)
              (users db) (sales db) in
  let usug :=
    left_join (fun r ug => u_id (fst r) =? ug_user_id ug) us (user_groups db) in
  left_join (fun r g =>
               match snd r with
               | Some ug => ug_group_id ug =? g_id g
               | None => false
               end) usug (groups db).

(** The key of [GROUP BY u.id, u.name, u.role]. *)
Definition key := (Z * string * string)%type.

Definition key_dec (x y : key) : {x = y} + {x <> y}.
Proof. repeat decide equality. Defined.

Definition key_of (r : joined) : key :=
  (u_id (j_user r), u_name (j_user r), u_role (j_user r)).

(** A row of the result. *)
Module Row.
Record t := {
  id : Z;
  name : string;
  role : string;
  sale_count : Z;
  total_revenue : option Q;
  avg_revenue : option Q;
  active_days : Z;
  groups : list (option string)
}.
End Row.

(** The select list over one group. *)
Definition select (g : key * list joined) : result Row.t :=
  let amounts := map (fun r => option_map s_amount (j_sale r)) (snd g) in
  avg <- cast_null_10_2 (AVG amounts) ;;
  Ok {| Row.id := fst (fst (fst g));
        Row.name := snd (fst (fst g));
        Row.role := snd (fst g);
        Row.sale_count := COUNT (map (fun r => option_map s_id (j_sale r)) (snd g));
        Row.total_revenue := SUM amounts;
        Row.avg_revenue := avg;
        Row.active_days :=
          COUNT_DISTINCT
            (map (fun r => option_map (fun s => date_trunc Day (s_date s)) (j_sale r))
                 (snd g));
        Row.groups := map (fun r => option_map g_name (j_group r)) (snd g) |}.

(** The rows before [LIMIT]: grouped, selected and ordered. *)
Definition ranked (db : database) (lo hi : date) : result (list Row.t) :=
  selected <- mapM select (group_by key_dec key_of (from db lo hi)) ;;
  Ok (order_by (fun a b => desc_nulls_last (Row.total_revenue a) (Row.total_revenue b))
               selected).

(** The row count of [LIMIT] is a [bigint]. *)
Definition bigint (n : Z) : bool := (- 2 ^ 63 <=? n) && (n <? 2 ^ 63).

(** The query text, run on [[startDate, end, parseInt(limit)]]: the text
    of [NaN] and an integer that is no [bigint] are refused. *)
Definition run_query (db : database) (lo hi : date) (n : option Z)
  : result (list Row.t) :=
  match n with
  | None => Err invalid_text_representation
  | Some n =>
      if bigint n
      then rows <- ranked db lo hi ;; LIMIT n rows
      else Err numeric_value_out_of_range
  end.

(** An emitted row. *)
Record output := {
  userId : Z;
  name : string;
  role : string;
  saleCount : Z;
  totalRevenue : JS.number;
  averageRevenue : JS.number;
  activeDays : Z;
  groups : list string
}.

(** [result.rows.map(row => ...)]. *)
Definition responseData (row : Row.t) : output :=
  {| userId := Row.id row;
     name := Row.name row;
     role := Row.role row;
     saleCount := Row.sale_count row;
     totalRevenue := JS.or_zero (JS.parseFloat (Row.total_revenue row));
     averageRevenue := JS.or_zero (JS.parseFloat (Row.avg_revenue row));
     activeDays := Row.active_days row;
     groups := non_null (Row.groups row) |}.

(** The handler. *)
Definition handler (db : database) (today : date) (q : query) : response output :=
  respond
    (run_query db (start_of (startDate q)) (end_of (endDate q) today)
               (parseInt_limit (limit q)))
    responseData.

End Users.

(** ** 3. [GET /api/sales-analytics/groups] *)

Module Groups.

Import Date Store SQL Http.

(** [req.query]. *)
Record query := {
  startDate : option date;
  endDate : option date
}.

(** A row of [FROM groups g LEFT JOIN user_groups ug ... LEFT JOIN sales s
    ...]. *)
Definition joined := (group * option user_group * option sale)%type.

Definition j_group (r : joined) : group := fst (fst r).
Definition j_member (r : joined) : option user_group := snd (fst r).
Definition j_sale (r : joined) : option sale := snd r.

Definition from (db : database) (lo hi : date) : list joined :=
  let gug :=
    left_join (fun g ug => g_id g =? ug_group_id ug) (groups db) (user_groups db) in
  left_join (fun r s =>
               match snd r with
               | Some ug => (ug_user_id ug =? s_user_id s) && between (s_date s) lo hi
               | None => false
               end) gug (sales db).

(** The key of [GROUP BY g.id, g.name]. *)
Definition key := (Z * string)%type.

Definition key_dec (x y : key) : {x = y} + {x <> y}.
Proof. repeat decide equality. Defined.

Definition key_of (r : joined) : key := (g_id (j_group r), g_name (j_group r)).

(** A row of the result. *)
Module Row.
Record t := {
  id : Z;
  name : string;
  member_count : Z;
  sale_count : Z;
  total_revenue : option Q;
  avg_revenue_per_sale : option Q;
  avg_revenue_per_member : option Q
}.
End Row.

(** The select list over one group. *)
Definition select (g : key * list joined) : result Row.t :=
  let amounts := map (fun r => option_map s_amount (j_sale r)) (snd g) in
  let members :=
    COUNT_DISTINCT (map (fun r => option_map ug_user_id (j_member r)) (snd g)) in
  avg <- cast_null_10_2 (AVG amounts) ;;
  per_member <- div (SUM amounts) (Some (inject_Z members)) ;;
  Ok {| Row.id := fst (fst g);
        Row.name := snd (fst g);
        Row.member_count := members;
        Row.sale_count := COUNT (map (fun r => option_map s_id (j_sale r)) (snd g));
        Row.total_revenue := SUM amounts;
        Row.avg_revenue_per_sale := avg;
        Row.avg_revenue_per_member := per_member |}.

(** The query text, run on [[startDate, end]]. *)
Definition run_query (db : database) (lo hi : date) : result (list Row.t) :=
  selected <- mapM select (group_by key_dec key_of (from db lo hi)) ;;
  Ok (order_by (fun a b => desc_nulls_last (Row.total_revenue a) (Row.total_revenue b))
               selected).

(** An emitted row. *)
Record output := {
  groupId : Z;
  name : string;
  memberCount : Z;
  saleCount : Z;
  totalRevenue : JS.number;
  avgRevenuePerSale : JS.number;
  avgRevenuePerMember : JS.number
}.

(** [result.rows.map(row => ...)]. *)
Definition responseData (row : Row.t) : output :=
  {| groupId := Row.id row;
     name := Row.name row;
     memberCount := Row.member_count row;
     saleCount := Row.sale_count row;
     totalRevenue := JS.or_zero (JS.parseFloat (Row.total_revenue row));
     avgRevenuePerSale := JS.or_zero (JS.parseFloat (Row.avg_revenue_per_sale row));
     avgRevenuePerMember := JS.or_zero (JS.parseFloat (Row.avg_revenue_per_member row)) |}.

(** The handler. *)
Definition handler (db : database) (today : date) (q : query) : response output :=
  respond (run_query db (start_of (startDate q)) (end_of (endDate q) today))
          responseData.

End Groups.

(** ** 4. [GET /api/sales-analytics/trends] *)

Module Trends.

Import Date Store SQL Http.

(** [req.query]. *)
Record query := {
  startDate : option date;
  endDate : option date;
  interval : option string
}.

(** A row of the common table expression [stats]. *)
Module Stats.
Record t := {
  period : date;
  total_revenue : option Q;
  sale_count : Z;
  prev_revenue : option Q
}.
End Stats.

(** The aggregates of one group of [stats], before the window function. *)
Definition aggregate (g : date * list sale) : date * option Q * Z :=
  (fst g,
   SUM (map (fun s => Some (s_amount s)) (snd g)),
   COUNT (map (fun s => Some (s_id s)) (snd g))).

(** [LAG(SUM(s.amount)) OVER (ORDER BY period)] along the groups in period
    order: the total of the row before, [NULL] on the first row. *)
Fixpoint lag (prev : option Q) (l : list (date * option Q * Z)) : list Stats.t :=
  match l with
  | [] => []
  | (p, total, n) :: l' =>
      {| Stats.period := p;
         Stats.total_revenue := total;
         Stats.sale_count := n;
         Stats.prev_revenue := prev |} :: lag total l'
  end.

Definition stats (db : database) (u : unit_) (lo hi : date) : list Stats.t :=
  let rows := filter (fun s => between (s_date s) lo hi) (sales db) in
  let grouped := group_by Z.eq_dec (fun s => date_trunc u (s_date s)) rows in
  lag None
      (order_by (fun a b => asc (fst (fst a)) (fst (fst b))) (map aggregate grouped)).

(** Strict arithmetic on nullable numerics. *)
Definition sub (a b : option Q) : option Q :=
  match a, b with
  | Some x, Some y => Some (x - y)%Q
  | _, _ => None
  end.

Definition mul (a b : option Q) : option Q :=
  match a, b with
  | Some x, Some y => Some (x * y)%Q
  | _, _ => None
  end.

(** A row of the result. *)
Module Row.
Record t := {
  period : date;
  total_revenue : option Q;
  sale_count : Z;
  growth_percentage : option Q
}.
End Row.

(** [CASE WHEN prev_revenue IS NOT NULL
         THEN ((total_revenue - prev_revenue) / prev_revenue * 100)::numeric(10,2)
         ELSE NULL END]. *)
Definition growth (total prev : option Q) : result (option Q) :=
  match prev with
  | Some _ =>
      ratio <- div (sub total prev) prev ;;
      cast_null_10_2 (mul ratio (Some 100%Q))
  | None => Ok None
  end.

(** The select list of the main query over one row of [stats]. *)
Definition select (s : Stats.t) : result Row.t :=
  g <- growth (Stats.total_revenue s) (Stats.prev_revenue s) ;;
  Ok {| Row.period := Stats.period s;
        Row.total_revenue := Stats.total_revenue s;
        Row.sale_count := Stats.sale_count s;
        Row.growth_percentage := g |}.

(** The query text, run on [[startDate, end]]. *)
Definition run_query (db : database) (timeInterval : string) (lo hi : date)
  : result (list Row.t) :=
  u <- trunc_unit timeInterval ;;
  selected <- mapM select (stats db u lo hi) ;;
  Ok (order_by (fun a b => asc (Row.period a) (Row.period b)) selected).

(** An emitted row; [growthPercentage] is [null] or a number. *)
Record output := {
  period : date;
  totalRevenue : JS.number;
  saleCount : Z;
  growthPercentage : option JS.number
}.

(** [result.rows.map(row => ...)]. *)
Definition responseData (row : Row.t) : output :=
  {| period := Row.period row;
     totalRevenue := JS.parseFloat (Row.total_revenue row);
     saleCount := Row.sale_count row;
     growthPercentage :=
       match Row.growth_percentage row with
       | Some g => Some (JS.parseFloat (Some g))
       | None => None
       end |}.

(** The handler. *)
Definition handler (db : database) (today : date) (q : query) : response output :=
  respond
    (run_query db (timeInterval (interval q)) (start_of (startDate q))
               (end_of (endDate q) today))
    responseData.

End Trends.

(** ** A small store, for the examples *)

Module Sample.

Import Date Store.

Definition today : date := days_from_civil 2021 12 31.

Definition db : database :=
  {| sales :=
       [ {| s_id := 1; s_user_id := 7; s_amount := 20000; s_date := days_from_civil 2021 1 5 |};
         {| s_id := 2; s_user_id := 7; s_amount := 40813; s_date := days_from_civil 2021 1 20 |};
         {| s_id := 3; s_user_id := 17; s_amount := 16562; s_date := days_from_civil 2021 2 10 |} ];
     users :=
       [ {| u_id := 7; u_name := "Gloria"; u_role := "Agent" |};
         {| u_id := 17; u_name := "Quincy"; u_role := "Retail Agent" |};
         {| u_id := 20; u_name := "Tess"; u_role := "Agent" |} ];
     groups :=
       [ {| g_id := 1; g_name := "Northeast Sales Team" |};
         {| g_id := 2; g_name := "West Coast Sales Team" |};
         {| g_id := 3; g_name := "Midwest Sales Team" |} ];
     user_groups :=
       [ {| ug_user_id := 7; ug_group_id := 1 |};
         {| ug_user_id := 17; ug_group_id := 2 |};
         {| ug_user_id := 20; ug_group_id := 1 |} ] |}.

(** A time-series request with every parameter absent but [userId]. *)
Definition time_series (userId : option string) : TimeSeries.query :=
  {| TimeSeries.startDate := None;
     TimeSeries.endDate := None;
     TimeSeries.interval := None;
     TimeSeries.userId := userId;
     TimeSeries.groupId := None;
     TimeSeries.metric := None |}.

(** A trend request, and a time-series request, for the second half of
    January 2021, by month. *)
Definition late_january_trend : Trends.query :=
  {| Trends.startDate := Some (days_from_civil 2021 1 15);
     Trends.endDate := Some (days_from_civil 2021 1 31);
     Trends.interval := Some "month" |}.

Definition late_january : TimeSeries.query :=
  {| TimeSeries.startDate := Some (days_from_civil 2021 1 15);
     TimeSeries.endDate := Some (days_from_civil 2021 1 31);
     TimeSeries.interval := Some "month";
     TimeSeries.userId := None;
     TimeSeries.groupId := None;
     TimeSeries.metric := None |}.

(** The one row they are answered with. *)
Definition january : TimeSeries.output :=
  {| TimeSeries.period := days_from_civil 2021 1 1;
     TimeSeries.totalRevenue := Some (JS.Num 40813);
     TimeSeries.averageRevenue := Some (JS.Num (4081300 # 100));
     TimeSeries.saleCount := Some 1;
     TimeSeries.activeUsers := Some 1 |}.

Definition january_trend : Trends.output :=
  {| Trends.period := days_from_civil 2021 1 1;
     Trends.totalRevenue := JS.Num 40813;
     Trends.saleCount := 1;
     Trends.growthPercentage := None |}.

(** A store whose first month sold for nothing: one sale of amount 0 in
    January, one of 500 in February. *)
Definition free_january : database :=
  {| sales :=
       [ {| s_id := 1; s_user_id := 7; s_amount := 0; s_date := days_from_civil 2021 1 5 |};
         {| s_id := 2; s_user_id := 7; s_amount := 500; s_date := days_from_civil 2021 2 10 |} ];
     users := users db;
     groups := groups db;
     user_groups := user_groups db |}.

Definition trend : Trends.query :=
  {| Trends.startDate := None; Trends.endDate := None; Trends.interval := None |}.

(** The row of February 2021 in the time series of user 17. *)
Definition february : TimeSeries.output :=
  {| TimeSeries.period := days_from_civil 2021 2 1;
     TimeSeries.totalRevenue := Some (JS.Num 16562);
     TimeSeries.averageRevenue := Some (JS.Num (1656200 # 100));
     TimeSeries.saleCount := Some 1;
     TimeSeries.activeUsers := Some 1 |}.

(** Requests for the user and the group report. *)
Definition ranking (endDate : option date) (limit : option string) : Users.query :=
  {| Users.startDate := None; Users.endDate := endDate; Users.limit := limit |}.

Definition teams : Groups.query :=
  {| Groups.startDate := None; Groups.endDate := None |}.

(** The rows of the user report over the whole of 2021. *)
Definition gloria : Users.output :=
  {| Users.userId := 7;
     Users.name := "Gloria";
     Users.role := "Agent";
     Users.saleCount := 2;
     Users.totalRevenue := JS.Num 60813;
     Users.averageRevenue := JS.Num (3040650 # 100);
     Users.activeDays := 2;
     Users.groups := ["Northeast Sales Team"; "Northeast Sales Team"] |}.

Definition quincy : Users.output :=
  {| Users.userId := 17;
     Users.name := "Quincy";
     Users.role := "Retail Agent";
     Users.saleCount := 1;
     Users.totalRevenue := JS.Num 16562;
     Users.averageRevenue := JS.Num (1656200 # 100);
     Users.activeDays := 1;
     Users.groups := ["West Coast Sales Team"] |}.

Definition tess : Users.output :=
  {| Users.userId := 20;
     Users.name := "Tess";
     Users.role := "Agent";
     Users.saleCount := 0;
     Users.totalRevenue := JS.Num 0;
     Users.averageRevenue := JS.Num 0;
     Users.activeDays := 0;
     Users.groups := ["Northeast Sales Team"] |}.

(** The rows of Gloria and Quincy when the range ends on 2021-01-10. *)
Definition gloria_early : Users.output :=
  {| Users.userId := 7;
     Users.name := "Gloria";
     Users.role := "Agent";
     Users.saleCount := 1;
     Users.totalRevenue := JS.Num 20000;
     Users.averageRevenue := JS.Num (2000000 # 100);
     Users.activeDays := 1;
     Users.groups := ["Northeast Sales Team"] |}.

Definition quincy_early : Users.output :=
  {| Users.userId := 17;
     Users.name := "Quincy";
     Users.role := "Retail Agent";
     Users.saleCount := 0;
     Users.totalRevenue := JS.Num 0;
     Users.averageRevenue := JS.Num 0;
     Users.activeDays := 0;
     Users.groups := ["West Coast Sales Team"] |}.

(** The rows of the group report over the whole of 2021. *)
Definition northeast : Groups.output :=
  {| Groups.groupId := 1;
     Groups.name := "Northeast Sales Team";
     Groups.memberCount := 2;
     Groups.saleCount := 2;
     Groups.totalRevenue := JS.Num 60813;
     Groups.avgRevenuePerSale := JS.Num (3040650 # 100);
     Groups.avgRevenuePerMember := JS.Num (60813 # 2) |}.

Definition west_coast : Groups.output :=
  {| Groups.groupId := 2;
     Groups.name := "West Coast Sales Team";
     Groups.memberCount := 1;
     Groups.saleCount := 1;
     Groups.totalRevenue := JS.Num 16562;
     Groups.avgRevenuePerSale := JS.Num (1656200 # 100);
     Groups.avgRevenuePerMember := JS.Num 16562 |}.

Definition midwest : Groups.output :=
  {| Groups.groupId := 3;
     Groups.name := "Midwest Sales Team";
     Groups.memberCount := 0;
     Groups.saleCount := 0;
     Groups.totalRevenue := JS.Num 0;
     Groups.avgRevenuePerSale := JS.Num 0;
     Groups.avgRevenuePerMember := JS.Num 0 |}.

(** The rows of the time series and of the trend of the whole of 2021,
    by month. *)
Definition january_all : TimeSeries.output :=
  {| TimeSeries.period := days_from_civil 2021 1 1;
     TimeSeries.totalRevenue := Some (JS.Num 60813);
     TimeSeries.averageRevenue := Some (JS.Num (3040650 # 100));
     TimeSeries.saleCount := Some 2;
     TimeSeries.activeUsers := Some 1 |}.

Definition january_growth : Trends.output :=
  {| Trends.period := days_from_civil 2021 1 1;
     Trends.totalRevenue := JS.Num 60813;
     Trends.saleCount := 2;
     Trends.growthPercentage := None |}.

Definition february_growth : Trends.output :=
  {| Trends.period := days_from_civil 2021 2 1;
     Trends.totalRevenue := JS.Num 16562;
     Trends.saleCount := 1;
     Trends.growthPercentage := Some (JS.Num (-7277 # 100)) |}.

End Sample.

(** ** Notions the statements use *)

Module Statement.

Import Date Store SQL Http.

(** An [interval] parameter that names none of the five units. *)
Definition not_an_interval (interval : option string) : Prop :=
  match interval with
  | Some i => includes validIntervals i = false
  | None => True
  end.

(** The users and the groups a report ranks, as [GROUP BY] tells them
    apart. *)
Definition user_key (u : user) : Users.key := (u_id u, u_name u, u_role u).

Definition distinct_users (db : database) : list Users.key :=
  nodup Users.key_dec (map user_key (users db)).

Definition group_key (g : group) : Groups.key := (g_id g, g_name g).

Definition distinct_groups (db : database) : list Groups.key :=
  nodup Groups.key_dec (map group_key (groups db)).



(** No amount of the store is negative. *)
Definition no_negative_amount (db : database) : Prop :=
  forallb (fun s => Qle_bool 0 (s_amount s)) (sales db) = true.

(** A column of emitted numbers that never goes up. *)
Definition descending (xs : list JS.number) : Prop :=
  StronglySorted (fun a b =>
                    match a, b with
                    | JS.Num x, JS.Num y => (y <= x)%Q
                    | _, _ => False
                    end) xs.

(** [a] may stand before [b] under [DESC NULLS LAST]: [b] is null, or
    neither is and [b <= a]. *)
Definition ranks_before (a b : option Q) : Prop :=
  match a, b with
  | _, None => True
  | None, Some _ => False
  | Some x, Some y => (y <= x)%Q
  end.

(** A sale the time-series request [q] counts: dated within the range,
    made by a user of the store, by the user [userId] names when it is
    set, and by a member of the group [groupId] names when it is set. *)
Definition matching_sale (db : database) (today : date) (q : TimeSeries.query)
  (s : sale) : Prop :=
  In s (sales db)
  /\ start_of (TimeSeries.startDate q) <= s_date s <= end_of (TimeSeries.endDate q) today
  /\ (exists u, In u (users db) /\ s_user_id s = u_id u)
  /\ (JS.truthy (TimeSeries.userId q) = true ->
      TimeSeries.parseInt (TimeSeries.userId q) = Some (s_user_id s))
  /\ (JS.truthy (TimeSeries.groupId q) = true ->
      exists ug, In ug (user_groups db)
                 /\ ug_user_id ug = s_user_id s
                 /\ TimeSeries.parseInt (TimeSeries.groupId q) = Some (ug_group_id ug)).



(** The sum of a column of counts. *)
Definition sum_counts (l : list Z) : Z := fold_right Z.add 0 l.

(** The same request, asking for months. *)
Definition time_series_monthly (q : TimeSeries.query) : TimeSeries.query :=
  {| TimeSeries.startDate := TimeSeries.startDate q;
     TimeSeries.endDate := TimeSeries.endDate q;
     TimeSeries.interval := Some "month";
     TimeSeries.userId := TimeSeries.userId q;
     TimeSeries.groupId := TimeSeries.groupId q;
     TimeSeries.metric := TimeSeries.metric q |}.

Definition trends_monthly (q : Trends.query) : Trends.query :=
  {| Trends.startDate := Trends.startDate q;
     Trends.endDate := Trends.endDate q;
     Trends.interval := Some "month" |}.

(** Every sale is the sale of one user: its [user_id] is the [id] of
    exactly one row of [users]. *)
Definition sales_have_one_user (db : database) : Prop :=
  forallb (fun s =>
             Nat.eqb (List.length (filter (fun u => s_user_id s =? u_id u) (users db))) 1)
          (sales db) = true.

(** The trend request with the dates and the interval of a time-series
    request. *)
Definition trends_of (q : TimeSeries.query) : Trends.query :=
  {| Trends.startDate := TimeSeries.startDate q;
     Trends.endDate := TimeSeries.endDate q;
     Trends.interval := TimeSeries.interval q |}.

End Statement.

(** * Properties *)

(** ** The calendar *)

Section Calendar.

Import Date.

Lemma day_of_era_range z : 0 <= day_of_era z < 146097.
Proof. unfold day_of_era, era. Z.div_mod_to_equations. lia. Qed.

Lemma year_of_era_bounds doe :
  0 <= doe < 146097 ->
  let yoe := (doe - doe / 1460 + doe / 36524 - doe / 146096) / 365 in
  0 <= yoe < 400 /\
  365 * yoe + yoe / 4 - yoe / 100 <= doe
  /\ doe < 365 * (yoe + 1) + (yoe + 1) / 4 - (yoe + 1) / 100 + (yoe + 1) / 400.
Proof. intros H yoe. subst yoe. Z.div_mod_to_equations; lia. Qed.

Lemma first_day_mono S1 S2 : S1 <= S2 -> first_day S1 <= first_day S2.
Proof.
  intros H. unfold first_day, year_start, month_start.
  assert (S1 / 12 = S2 / 12 \/ S1 / 12 + 1 <= S2 / 12) as [E | E]
    by (Z.div_mod_to_equations; lia).
  - rewrite E. assert (S1 mod 12 <= S2 mod 12) by (Z.div_mod_to_equations; lia).
    generalize dependent (S1 mod 12). generalize dependent (S2 mod 12).
    intros. Z.div_mod_to_equations; lia.
  - assert (0 <= S1 mod 12 < 12 /\ 0 <= S2 mod 12 < 12) by (Z.div_mod_to_equations; lia).
    generalize dependent (S1 mod 12). generalize dependent (S2 mod 12).
    generalize dependent (S1 / 12). generalize dependent (S2 / 12).
    intros. Z.div_mod_to_equations; lia.
Qed.

Lemma month_index_position z :
  let Y := year_of_era z + era z * 400 in
  0 <= month_from_march z < 12 /\
  z + 719468 = year_start Y + day_of_year z /\
  month_start (month_from_march z) <= day_of_year z /\
  day_of_year z < month_start (month_from_march z + 1) /\
  day_of_year z < year_start (Y + 1) - year_start Y.
Proof.
  intros Y. subst Y.
  pose proof (year_of_era_bounds (day_of_era_range z)) as H. cbv zeta in H.
  fold (year_of_era z) in H. destruct H as (Hy & Hlo & Hhi).
  assert (Hd : day_of_era z = z + 719468 - era z * 146097) by reflexivity.
  assert (Hdoy : day_of_year z
                 = day_of_era z - (365 * year_of_era z + year_of_era z / 4 - year_of_era z / 100))
    by reflexivity.
  unfold month_from_march, month_start, year_start.
  generalize dependent (day_of_year z). generalize dependent (day_of_era z).
  generalize dependent (year_of_era z). generalize dependent (era z).
  intros e y Hy doe Hlo Hhi Hd doy Hdoy.
  repeat split; Z.div_mod_to_equations; lia.
Qed.


Lemma first_day_index Y mp :
  0 <= mp < 12 -> first_day (12 * Y + mp) = year_start Y + month_start mp - 719468.
Proof.
  intros H. unfold first_day.
  replace ((12 * Y + mp) / 12) with Y by (Z.div_mod_to_equations; lia).
  replace ((12 * Y + mp) mod 12) with mp by (Z.div_mod_to_equations; lia).
  reflexivity.
Qed.

Lemma month_index_bucket z :
  first_day (month_index z) <= z < first_day (month_index z + 1).
Proof.
  pose proof (month_index_position z) as (Hm & Hz & Hlo & Hhi & Hy).
  unfold month_index. rewrite first_day_index by lia.
  split; [lia|].
  destruct (Z.eq_dec (month_from_march z) 11) as [E | E].
  - replace (12 * (year_of_era z + era z * 400) + month_from_march z + 1)
      with (12 * (year_of_era z + era z * 400 + 1) + 0) by lia.
    rewrite first_day_index by lia.
    replace (month_start 0) with 0 by reflexivity. lia.
  - replace (12 * (year_of_era z + era z * 400) + month_from_march z + 1)
      with (12 * (year_of_era z + era z * 400) + (month_from_march z + 1)) by lia.
    rewrite first_day_index by lia. lia.
Qed.

Lemma month_index_mono z1 z2 : z1 <= z2 -> month_index z1 <= month_index z2.
Proof.
  intros H.
  destruct (Z_le_gt_dec (month_index z1) (month_index z2)) as [L | G]; [exact L|].
  pose proof (month_index_bucket z1) as [B1 _].
  pose proof (month_index_bucket z2) as [_ B2].
  assert (first_day (month_index z2 + 1) <= first_day (month_index z1))
    by (apply first_day_mono; lia).
  lia.
Qed.

Lemma days_from_civil_first y m :
  1 <= m <= 12 ->
  days_from_civil y m 1
  = first_day (12 * (if m <=? 2 then y - 1 else y) + (if 2 <? m then m - 3 else m + 9)).
Proof.
  intros H. rewrite first_day_index by (destruct (2 <? m) eqn:E; lia).
  unfold days_from_civil, year_start, month_start. cbv zeta.
  generalize (if m <=? 2 then y - 1 else y). intros Y.
  generalize ((153 * (if 2 <? m then m - 3 else m + 9) + 2) / 5). intros M.
  Z.div_mod_to_equations. lia.
Qed.

Lemma civil_from_days_index z :
  let '(y, m, _) := civil_from_days z in
  1 <= m <= 12 /\
  12 * (if m <=? 2 then y - 1 else y) + (if 2 <? m then m - 3 else m + 9) = month_index z.
Proof.
  pose proof (month_index_position z) as (Hm & _).
  unfold civil_from_days, month_index. cbv zeta.
  set (mp := month_from_march z) in *.
  destruct (mp <? 10) eqn:E.
  - apply Z.ltb_lt in E.
    replace (mp + 3 <=? 2) with false by (symmetry; apply Z.leb_gt; lia).
    replace (2 <? mp + 3) with true by (symmetry; apply Z.ltb_lt; lia). lia.
  - apply Z.ltb_ge in E.
    replace (mp - 9 <=? 2) with true by (symmetry; apply Z.leb_le; lia).
    replace (2 <? mp - 9) with false by (symmetry; apply Z.ltb_ge; lia). lia.
Qed.

Lemma date_trunc_first_day u z :
  u = Month \/ u = Quarter \/ u = Year ->
  date_trunc u z = first_day (bucket_index u (month_index z)).
Proof.
  intros Hu. pose proof (civil_from_days_index z) as H.
  unfold date_trunc, bucket_index.
  destruct (civil_from_days z) as [[y m] d]. destruct H as [Hm Hi].
  destruct Hu as [-> | [-> | ->]].
  - rewrite days_from_civil_first by lia. now rewrite Hi.
  - rewrite days_from_civil_first by (Z.div_mod_to_equations; lia).
    f_equal. rewrite <- Hi.
    assert (m = 1 \/ m = 2 \/ m = 3 \/ m = 4 \/ m = 5 \/ m = 6 \/ m = 7 \/ m = 8
            \/ m = 9 \/ m = 10 \/ m = 11 \/ m = 12) as Hc by lia.
    repeat (destruct Hc as [-> | Hc]); try subst m;
      match goal with
      | |- context [3 * ((?k - 1) / 3) + 1] =>
          let v := eval vm_compute in (3 * ((k - 1) / 3) + 1) in
          change (3 * ((k - 1) / 3) + 1) with v
      end;
      cbn [Z.leb Z.ltb Z.compare Pos.compare Pos.compare_cont];
      Z.div_mod_to_equations; lia.
  - rewrite days_from_civil_first by lia.
    f_equal. rewrite <- Hi.
    replace (2 <? 1) with false by reflexivity. replace (1 <=? 2) with true by reflexivity.
    destruct (m <=? 2) eqn:E1; destruct (2 <? m) eqn:E2;
      try apply Z.leb_le in E1; try apply Z.leb_gt in E1;
      try apply Z.ltb_lt in E2; try apply Z.ltb_ge in E2;
      Z.div_mod_to_equations; lia.
Qed.

Lemma bucket_index_mono u S1 S2 : S1 <= S2 -> bucket_index u S1 <= bucket_index u S2.
Proof. intros H. destruct u; unfold bucket_index; try lia; Z.div_mod_to_equations; lia. Qed.

Lemma date_trunc_mono u z1 z2 : z1 <= z2 -> date_trunc u z1 <= date_trunc u z2.
Proof.
  intros H.
  assert (M : forall u', u' = Month \/ u' = Quarter \/ u' = Year ->
                         date_trunc u' z1 <= date_trunc u' z2).
  { intros u' Hu. rewrite !date_trunc_first_day by exact Hu.
    apply first_day_mono, bucket_index_mono, month_index_mono, H. }
  destruct u; try (apply M; tauto).
  - exact H.
  - unfold date_trunc. Z.div_mod_to_equations. lia.
Qed.

Lemma date_trunc_le u z : date_trunc u z <= z.
Proof.
  assert (M : forall u', u' = Month \/ u' = Quarter \/ u' = Year -> date_trunc u' z <= z).
  { intros u' Hu. rewrite date_trunc_first_day by exact Hu.
    pose proof (month_index_bucket z) as [B _].
    assert (bucket_index u' (month_index z) <= month_index z)
      by (destruct u'; unfold bucket_index; try lia; Z.div_mod_to_equations; lia).
    pose proof (first_day_mono H). lia. }
  destruct u; try (apply M; tauto).
  - unfold date_trunc. lia.
  - unfold date_trunc. Z.div_mod_to_equations. lia.
Qed.

End Calendar.

(** ** Lists of rows *)

Section Rows.

Import SQL.

Lemma mapM_Forall2 A B (f : A -> result B) l bs :
  mapM f l = Ok bs -> Forall2 (fun a b => f a = Ok b) l bs.
Proof.
  revert bs. induction l as [|a l IH]; simpl; intros bs H.
  - injection H as <-. constructor.
  - destruct (f a) as [b|e] eqn:Ea; simpl in H; [|discriminate].
    destruct (mapM f l) as [bs'|e] eqn:El; simpl in H; [|discriminate].
    injection H as <-. constructor; auto.
Qed.

Lemma mapM_length A B (f : A -> result B) l bs :
  mapM f l = Ok bs -> List.length bs = List.length l.
Proof.
  intros H. apply mapM_Forall2 in H. symmetry. eapply Forall2_length; eauto.
Qed.

Lemma mapM_In A B (f : A -> result B) l bs b :
  mapM f l = Ok bs -> In b bs -> exists a, In a l /\ f a = Ok b.
Proof.
  intros H. apply mapM_Forall2 in H. induction H; simpl; intros Hin; [tauto|].
  destruct Hin as [<- | Hin]; [eauto|].
  destruct (IHForall2 Hin) as (a & ? & ?). eauto.
Qed.

Lemma mapM_In_left A B (f : A -> result B) l bs a :
  mapM f l = Ok bs -> In a l -> exists b, In b bs /\ f a = Ok b.
Proof.
  intros H. apply mapM_Forall2 in H. induction H; simpl; intros Hin; [tauto|].
  destruct Hin as [<- | Hin]; [eauto|].
  destruct (IHForall2 Hin) as (b & ? & ?). eauto.
Qed.



Lemma In_non_null A (l : list (option A)) a : In a (non_null l) <-> In (Some a) l.
Proof.
  unfold non_null. rewrite in_flat_map. split.
  - intros ([x|] & Hx & Hin); simpl in Hin; [|tauto].
    destruct Hin as [-> | []]. exact Hx.
  - intros H. exists (Some a). simpl. auto.
Qed.

Lemma non_null_all_null A B (f : A -> option B) l :
  (forall a, In a l -> f a = None) -> non_null (map f l) = [].
Proof.
  induction l as [|a l IH]; simpl; intros H; [reflexivity|].
  rewrite (H a) by auto. simpl. apply IH. auto.
Qed.

Lemma In_join A B (on : A -> B -> bool) l r a b :
  In (a, b) (join on l r) <-> In a l /\ In b r /\ on a b = true.
Proof.
  unfold join. rewrite in_flat_map. split.
  - intros (a' & Ha & Hin). apply in_map_iff in Hin as (b' & E & Hb).
    injection E as -> ->. apply filter_In in Hb. tauto.
  - intros (Ha & Hb & Hon). exists a. split; [exact Ha|].
    apply in_map, filter_In. auto.
Qed.

Lemma In_left_join A B (on : A -> B -> bool) l r a ob :
  In (a, ob) (left_join on l r) ->
  In a l /\ match ob with
            | Some b => In b r /\ on a b = true
            | None => forall b, In b r -> on a b = false
            end.
Proof.
  unfold left_join. rewrite in_flat_map. intros (a' & Ha & Hin).
  destruct (filter (on a') r) as [|b0 bs] eqn:E.
  - destruct Hin as [Hin | []]. injection Hin as -> <-. split; [exact Ha|].
    intros b Hb. destruct (on a b) eqn:Eon; [|reflexivity].
    assert (In b (filter (on a) r)) by (apply filter_In; auto).
    rewrite E in H. destruct H.
  - apply in_map_iff in Hin as (b' & Eq & Hb). injection Eq as -> <-.
    rewrite <- E in Hb. apply filter_In in Hb. tauto.
Qed.

Lemma left_join_left A B (on : A -> B -> bool) l r a :
  In a l -> exists ob, In (a, ob) (left_join on l r).
Proof.
  intros Ha. unfold left_join.
  destruct (filter (on a) r) as [|b0 bs] eqn:E.
  - exists None. apply in_flat_map. exists a. rewrite E. simpl. auto.
  - exists (Some b0). apply in_flat_map. exists a. rewrite E. simpl. auto.
Qed.

Section GroupBy.

Variables (R K : Type).
Variable K_dec : forall x y : K, {x = y} + {x <> y}.
Variable key : R -> K.

Lemma In_group_by rows k g :
  In (k, g) (group_by K_dec key rows) ->
  g <> [] /\ forall r, In r g <-> In r rows /\ key r = k.
Proof.
  unfold group_by. intros H. apply in_map_iff in H as (k' & E & Hk).
  injection E as -> <-. apply nodup_In in Hk.
  assert (Hg : forall r, In r (filter (fun r => if K_dec (key r) k then true else false) rows)
                         <-> In r rows /\ key r = k).
  { intros r. rewrite filter_In. destruct (K_dec (key r) k); intuition congruence. }
  split; [|exact Hg].
  apply in_map_iff in Hk as (r & Hr & Hin).
  intros E. assert (In r []) by (rewrite <- E; apply Hg; auto). auto.
Qed.

Lemma group_by_key rows r :
  In r rows -> exists g, In (key r, g) (group_by K_dec key rows).
Proof.
  intros H. unfold group_by. eexists. apply in_map_iff. eexists. split; [reflexivity|].
  apply nodup_In, in_map, H.
Qed.

Lemma group_by_length rows :
  List.length (group_by K_dec key rows) = List.length (nodup K_dec (map key rows)).
Proof. unfold group_by. apply length_map. Qed.

End GroupBy.

Lemma nodup_length_same A (dec : forall x y : A, {x = y} + {x <> y}) l l' :
  (forall a, In a l <-> In a l') ->
  List.length (nodup dec l) = List.length (nodup dec l').
Proof.
  intros H. apply Nat.le_antisymm; apply NoDup_incl_length;
    try apply NoDup_nodup; intros a Ha; apply nodup_In; apply nodup_In in Ha; apply H, Ha.
Qed.

Section OrderBy.

Variable A : Type.
Variable before : A -> A -> bool.

Lemma insert_Permutation x l : Permutation (insert before x l) (x :: l).
Proof.
  induction l as [|y l IH]; simpl; [reflexivity|].
  destruct (before x y); [reflexivity|].
  rewrite IH. apply perm_swap.
Qed.

Lemma order_by_Permutation l : Permutation (order_by before l) l.
Proof.
  induction l as [|x l IH]; simpl; [reflexivity|].
  rewrite insert_Permutation. now constructor.
Qed.

Lemma In_order_by l x : In x (order_by before l) <-> In x l.
Proof.
  split; apply Permutation_in; [|symmetry]; apply order_by_Permutation.
Qed.

Lemma order_by_length l : List.length (order_by before l) = List.length l.
Proof. apply Permutation_length, order_by_Permutation. Qed.

Hypothesis before_total : forall a b, before a b = false -> before b a = true.
Hypothesis before_trans :
  forall a b c, before a b = true -> before b c = true -> before a c = true.

Lemma insert_sorted x l :
  StronglySorted (fun a b => before a b = true) l ->
  StronglySorted (fun a b => before a b = true) (insert before x l).
Proof.
  induction 1 as [|y l Hs IH Hy]; simpl.
  - repeat constructor.
  - destruct (before x y) eqn:E.
    + constructor; [constructor; assumption|].
      constructor; [exact E|].
      rewrite Forall_forall in *. eauto.
    + constructor; [exact IH|].
      rewrite Forall_forall in *. intros z Hz.
      apply (Permutation_in _ (insert_Permutation x l)) in Hz.
      destruct Hz as [<- | Hz]; auto.
Qed.

Lemma order_by_sorted l :
  StronglySorted (fun a b => before a b = true) (order_by before l).
Proof.
  induction l as [|x l IH]; simpl; [constructor|]. apply insert_sorted, IH.
Qed.

End OrderBy.

Lemma firstn_In A n (l : list A) x : In x (firstn n l) -> In x l.
Proof.
  revert n. induction l as [|y l IH]; intros [|n]; simpl; try tauto.
  intros [H | H]; eauto.
Qed.

Lemma StronglySorted_firstn A (R : A -> A -> Prop) n l :
  StronglySorted R l -> StronglySorted R (firstn n l).
Proof.
  intros H. revert n. induction H as [|x l Hs IH Hx]; intros [|n]; simpl;
    try constructor; auto.
  rewrite Forall_forall in *. intros y Hy. apply Hx. eapply firstn_In; eauto.
Qed.

Lemma StronglySorted_map A B (f : A -> B) (R : B -> B -> Prop) l :
  StronglySorted (fun a b => R (f a) (f b)) l -> StronglySorted R (map f l).
Proof.
  induction 1 as [|x l Hs IH Hx]; simpl; constructor; auto.
  rewrite Forall_forall in *. intros y Hy.
  apply in_map_iff in Hy as (a & <- & Ha). auto.
Qed.

Lemma StronglySorted_weaken A (R R' : A -> A -> Prop) l :
  (forall a b, In a l -> In b l -> R a b -> R' a b) ->
  StronglySorted R l -> StronglySorted R' l.
Proof.
  intros H Hs. induction Hs as [|x l Hs IH Hx]; constructor.
  - apply IH. intros a b Ha Hb. apply H; simpl; auto.
  - rewrite Forall_forall in *. intros y Hy. apply H; simpl; auto.
Qed.

End Rows.

(** ** Responses *)

Section Responses.

Import SQL Http.

Lemma respond_json Row R (res : result (list Row)) (f : Row -> R) data :
  respond res f = json data -> exists rows, res = Ok rows /\ data = map f rows.
Proof.
  unfold respond. destruct res; intros H; [|discriminate].
  injection H as <-. eauto.
Qed.


End Responses.

(** ** Intervals *)

Section Intervals.

Import Date SQL Http Statement.

Lemma includes_In l s : includes l s = true <-> In s l.
Proof.
  unfold includes. rewrite existsb_exists. split.
  - intros (x & Hx & E). apply String.eqb_eq in E. now subst.
  - intros H. exists s. split; [exact H|]. apply String.eqb_refl.
Qed.

Lemma timeInterval_valid interval : In (timeInterval interval) validIntervals.
Proof.
  unfold timeInterval.
  destruct (includes validIntervals _) eqn:E.
  - now apply includes_In.
  - simpl. tauto.
Qed.

Lemma trunc_unit_valid ti : In ti validIntervals -> exists u, trunc_unit ti = Ok u.
Proof.
  simpl. intros [<- | [<- | [<- | [<- | [<- | []]]]]]; eexists; reflexivity.
Qed.

Lemma trunc_unit_timeInterval interval : exists u, trunc_unit (timeInterval interval) = Ok u.
Proof. apply trunc_unit_valid, timeInterval_valid. Qed.

Lemma timeInterval_month interval :
  not_an_interval interval -> timeInterval interval = "month".
Proof.
  unfold not_an_interval, timeInterval. destruct interval as [i|]; [|reflexivity].
  intros H. now rewrite H.
Qed.

End Intervals.

(** ** The time-series report *)

Section TimeSeriesFacts.

Import Date Store SQL Http Statement TimeSeries.

Lemma time_series_from_sale db with_groups (j : joined) :
  In j (from db with_groups) ->
  In (fst (fst j)) (sales db)
  /\ In (snd (fst j)) (users db)
  /\ s_user_id (fst (fst j)) = u_id (snd (fst j))
  /\ forall ug, snd j = Some ug ->
                In ug (user_groups db) /\ ug_user_id ug = s_user_id (fst (fst j)).
Proof.
  unfold from. destruct with_groups; intros H; apply in_map_iff in H as (x & <- & Hx).
  - destruct x as [[s u] ug]. apply In_join in Hx as (Hx & Hug & Hon). simpl in *.
    apply In_join in Hx as (Hs & Hu & Hid). apply Z.eqb_eq in Hid, Hon.
    split; [exact Hs|]. split; [exact Hu|]. split; [exact Hid|].
    intros ug' E. injection E as <-. split; [exact Hug | congruence].
  - destruct x as [s u]. apply In_join in Hx as (Hs & Hu & Hid). simpl.
    apply Z.eqb_eq in Hid.
    split; [exact Hs|]. split; [exact Hu|]. split; [exact Hid|]. discriminate.
Qed.

(** The two date clauses are always part of the filter. *)
Lemma time_series_filter_dates q today tests (j : joined) :
  mapM (bind_clause (snd (buildFilter q today))) (fst (buildFilter q today)) = Ok tests ->
  forallb (fun t => t j) tests = true ->
  start_of (startDate q) <= s_date (fst (fst j)) <= end_of (endDate q) today.
Proof.
  unfold buildFilter.
  destruct (JS.truthy (userId q)), (JS.truthy (groupId q)); simpl;
    repeat match goal with
           | |- context [parseInt ?p] => destruct (parseInt p); simpl
           end;
    intros H; try discriminate; injection H as <-; simpl;
    rewrite ?andb_true_iff; intros H; lia.
Qed.

(** So are the clauses of the ids that are set. *)
Lemma time_series_filter_ids q today tests (j : joined) :
  mapM (bind_clause (snd (buildFilter q today))) (fst (buildFilter q today)) = Ok tests ->
  forallb (fun t => t j) tests = true ->
  (JS.truthy (userId q) = true -> parseInt (userId q) = Some (s_user_id (fst (fst j))))
  /\ (JS.truthy (groupId q) = true ->
      exists ug, snd j = Some ug /\ parseInt (groupId q) = Some (ug_group_id ug)).
Proof.
  unfold buildFilter.
  destruct (JS.truthy (userId q)), (JS.truthy (groupId q)); simpl;
    repeat match goal with
           | |- context [parseInt ?p] => destruct (parseInt p); simpl
           end;
    intros H; try discriminate; injection H as <-; simpl;
    rewrite ?andb_true_iff; intros H; decompose [and] H; clear H;
    (split; intros E; try discriminate);
    repeat match goal with
           | H : (_ =? _) = true |- _ => apply Z.eqb_eq in H
           end;
    try (f_equal; congruence);
    (destruct (snd j) as [ug|]; [|discriminate]);
    repeat match goal with
           | H : (_ =? _) = true |- _ => apply Z.eqb_eq in H
           end;
    (eexists; split; [reflexivity | f_equal; congruence]).
Qed.


Lemma time_series_select p (g : list joined) r :
  select (p, g) = Ok r ->
  Row.period r = p
  /\ Row.sale_count r = Z.of_nat (List.length g)
  /\ (g <> [] -> exists t, Row.total_revenue r = Some t).
Proof.
  unfold select. simpl.
  destruct (cast_null_10_2 _) as [avg|e]; simpl; intros H; [|discriminate].
  injection H as <-. simpl. split; [reflexivity|]. split.
  - unfold COUNT. f_equal. induction g; simpl; auto.
  - intros Hg. unfold SUM. destruct g as [|j g]; [congruence|]. simpl. eauto.
Qed.

Lemma time_series_rows db ti with_groups whereClauses params rows :
  run_query db ti with_groups whereClauses params = Ok rows ->
  exists u tests,
    trunc_unit ti = Ok u
    /\ mapM (bind_clause params) whereClauses = Ok tests
    /\ List.length rows
       = List.length
           (nodup Z.eq_dec
                  (map (fun j : joined => date_trunc u (s_date (fst (fst j))))
                       (filter (fun j => forallb (fun t => t j) tests)
                               (from db with_groups))))
    /\ forall r, In r rows ->
         1 <= Row.sale_count r
         /\ (exists t, Row.total_revenue r = Some t)
         /\ exists j, In j (from db with_groups)
                      /\ forallb (fun t => t j) tests = true
                      /\ Row.period r = date_trunc u (s_date (fst (fst j))).
Proof.
  unfold run_query.
  destruct (trunc_unit ti) as [u|e]; simpl; [|discriminate].
  destruct (mapM (bind_clause params) whereClauses) as [tests|e]; simpl; [|discriminate].
  destruct (mapM select _) as [selected|e] eqn:Es; simpl; intros H; [|discriminate].
  injection H as <-. exists u, tests. repeat split; try reflexivity.
  - rewrite order_by_length, (mapM_length _ _ Es). apply group_by_length.
  - apply In_order_by in H. destruct (mapM_In _ _ _ Es H) as ([p g] & Hg & Hsel).
    apply In_group_by in Hg as [Hne _]. apply time_series_select in Hsel as (_ & -> & _).
    destruct g; [congruence|]. simpl. lia.
  - apply In_order_by in H. destruct (mapM_In _ _ _ Es H) as ([p g] & Hg & Hsel).
    apply In_group_by in Hg as [Hne _]. apply time_series_select in Hsel as (_ & _ & Ht). auto.
  - apply In_order_by in H. destruct (mapM_In _ _ _ Es H) as ([p g] & Hg & Hsel).
    apply In_group_by in Hg as [Hne Hg]. apply time_series_select in Hsel as (-> & _ & _).
    destruct g as [|j g]; [congruence|]. exists j.
    destruct (Hg j) as [Hj _]. destruct Hj as [Hj Hk]; [simpl; auto|].
    apply filter_In in Hj. intuition.
Qed.

(** What stands behind an emitted row: a row of the query, hence a group
    of joined rows that passed the filter. *)
Lemma time_series_emitted db today (q : query) data o :
  handler db today q = json data ->
  In o data ->
  exists r u s,
    o = responseData (metric_of q) r
    /\ 1 <= Row.sale_count r
    /\ (exists t, Row.total_revenue r = Some t)
    /\ trunc_unit (timeInterval (interval q)) = Ok u
    /\ matching_sale db today q s
    /\ Row.period r = date_trunc u (s_date s).
Proof.
  unfold handler. intros H Ho.
  pose proof (@time_series_filter_dates q today) as Hd.
  pose proof (@time_series_filter_ids q today) as Hi.
  destruct (buildFilter q today) as [wc ps]. simpl in Hd, Hi.
  apply respond_json in H as (rows & Hq & ->).
  apply in_map_iff in Ho as (r & <- & Hr).
  apply time_series_rows in Hq as (u & tests & Hu & Ht & _ & Hrows).
  destruct (Hrows r Hr) as (Hn & Htot & j & Hj & Hf & Hp).
  apply time_series_from_sale in Hj as (Hs & Hus & Hid & Hug).
  destruct (Hi tests j Ht Hf) as [Hiu Hig].
  exists r, u, (fst (fst j)). repeat split; auto.
  - apply (Hd tests j Ht Hf).
  - apply (Hd tests j Ht Hf).
  - eauto.
  - intros E. destruct (Hig E) as (ug & Eug & Hp').
    destruct (Hug ug Eug). eauto.
Qed.

End TimeSeriesFacts.

(** ** The claims on the time-series report *)

Section TimeSeriesClaims.

Import Date Store SQL Http Statement.

(** C9. An [interval] outside day, week, month, quarter and year, an
    absent one included, is read as [month]: the query truncates dates to
    months, and the time-series and trend reports answer what they answer
    to the same request with [interval=month]; the interval raises no
    error. *)
Theorem invalid_interval_is_month (interval : option string) :
  not_an_interval interval ->
  timeInterval interval = "month"
  /\ trunc_unit (timeInterval interval) = Ok Month
  /\ (forall db today q,
         TimeSeries.interval q = interval ->
         TimeSeries.handler db today q
         = TimeSeries.handler db today (time_series_monthly q))
  /\ (forall db today q,
         Trends.interval q = interval ->
         Trends.handler db today q = Trends.handler db today (trends_monthly q)).
Proof.
  intros H. pose proof (timeInterval_month interval H) as E.
  split; [exact E|]. split; [rewrite E; reflexivity|]. split.
  - intros db today q <-. unfold TimeSeries.handler. rewrite E. reflexivity.
  - intros db today q <-. unfold Trends.handler. rewrite E. reflexivity.
Qed.

Lemma invalid_interval_is_month_witness :
  not_an_interval (Some "fortnight")
  /\ timeInterval (Some "fortnight") = "month"
  /\ trunc_unit (timeInterval (Some "fortnight")) = Ok Month
  /\ (forall db today q,
         TimeSeries.interval q = Some "fortnight" ->
         TimeSeries.handler db today q
         = TimeSeries.handler db today (time_series_monthly q))
  /\ (forall db today q,
         Trends.interval q = Some "fortnight" ->
         Trends.handler db today q = Trends.handler db today (trends_monthly q)).
Proof.
  split; [reflexivity|].
  apply (invalid_interval_is_month (Some "fortnight")). reflexivity.
Defined.






End TimeSeriesClaims.

(** ** The trend report *)

Section TrendsFacts.

Import Date Store SQL Http Trends.

Lemma lag_periods prev l : map Stats.period (lag prev l) = map (fun a => fst (fst a)) l.
Proof.
  revert prev. induction l as [|[[p t] n] l IH]; intros prev; simpl; [reflexivity|].
  now rewrite IH.
Qed.

Lemma trends_stats_periods db u lo hi :
  forall p, In p (map Stats.period (stats db u lo hi)) <->
            In p (map (fun s => date_trunc u (s_date s))
                      (filter (fun s => between (s_date s) lo hi) (sales db))).
Proof.
  intros p. unfold stats. rewrite lag_periods.
  rewrite in_map_iff. split.
  - intros (a & <- & Ha). apply In_order_by in Ha.
    apply in_map_iff in Ha as ([k g] & <- & Hg). simpl.
    apply in_map_iff in Hg as (k' & E & Hk). injection E as -> _.
    apply nodup_In in Hk. exact Hk.
  - intros H. apply (nodup_In Z.eq_dec) in H.
    eexists (aggregate (p, _)). split; [reflexivity|].
    apply In_order_by, in_map. unfold group_by. apply in_map_iff.
    exists p. split; [reflexivity | exact H].
Qed.

Lemma trends_stats_length db u lo hi :
  List.length (stats db u lo hi)
  = List.length (nodup Z.eq_dec
                       (map (fun s => date_trunc u (s_date s))
                            (filter (fun s => between (s_date s) lo hi) (sales db)))).
Proof.
  unfold stats.
  assert (L : forall prev l, List.length (lag prev l) = List.length l).
  { intros prev l. revert prev. induction l as [|[[p t] n] l IH]; intros prev; simpl; auto. }
  rewrite L, order_by_length, length_map. apply group_by_length.
Qed.

Lemma trends_select_period s r : select s = Ok r -> Row.period r = Stats.period s.
Proof.
  unfold select. destruct (growth _ _); simpl; intros H; [|discriminate].
  now injection H as <-.
Qed.

Lemma trends_rows db ti lo hi rows :
  run_query db ti lo hi = Ok rows ->
  exists u,
    trunc_unit ti = Ok u
    /\ List.length rows
       = List.length (nodup Z.eq_dec
                            (map (fun s => date_trunc u (s_date s))
                                 (filter (fun s => between (s_date s) lo hi) (sales db))))
    /\ forall r, In r rows ->
         exists s, In s (sales db) /\ lo <= s_date s <= hi
                   /\ Row.period r = date_trunc u (s_date s).
Proof.
  unfold run_query. destruct (trunc_unit ti) as [u|e]; simpl; [|discriminate].
  destruct (mapM select _) as [selected|e] eqn:Es; simpl; intros H; [|discriminate].
  injection H as <-. exists u. split; [reflexivity|]. split.
  - rewrite order_by_length, (mapM_length _ _ Es). apply trends_stats_length.
  - intros r Hr. apply In_order_by in Hr.
    destruct (mapM_In _ _ _ Es Hr) as (st & Hst & Hsel).
    apply trends_select_period in Hsel. rewrite Hsel.
    assert (Hp : In (Stats.period st) (map Stats.period (stats db u lo hi)))
      by (apply in_map, Hst).
    apply trends_stats_periods in Hp. apply in_map_iff in Hp as (s & <- & Hs).
    apply filter_In in Hs as [Hs Hb]. exists s. unfold between in Hb.
    apply andb_true_iff in Hb. split; [exact Hs|]. split; [lia | reflexivity].
Qed.

(** A previous total of zero makes the growth an error, whatever the
    current total. *)
Lemma growth_zero_prev t p : (p == 0)%Q -> growth (Some t) (Some p) = Err division_by_zero.
Proof.
  intros H. unfold growth, div, sub.
  apply Qeq_bool_iff in H. now rewrite H.
Qed.

End TrendsFacts.

(** ** The claims on buckets and growth *)

Section BucketClaims.

Import Date Store SQL Http.

(** C6, as the code has it. The period of every row of the time-series
    and of the trend report is the truncated date of a sale dated within
    [startDate, endDate]: it lies between the truncation of [startDate]
    and [endDate]. *)
Theorem periods_truncate_sales_in_range db today :
  (forall (q : TimeSeries.query) data o,
      TimeSeries.handler db today q = json data ->
      In o data ->
      exists u s,
        trunc_unit (timeInterval (TimeSeries.interval q)) = Ok u
        /\ In s (sales db)
        /\ start_of (TimeSeries.startDate q) <= s_date s
           <= end_of (TimeSeries.endDate q) today
        /\ TimeSeries.period o = date_trunc u (s_date s)
        /\ date_trunc u (start_of (TimeSeries.startDate q)) <= TimeSeries.period o
           <= end_of (TimeSeries.endDate q) today)
  /\ (forall (q : Trends.query) data o,
         Trends.handler db today q = json data ->
         In o data ->
         exists u s,
           trunc_unit (timeInterval (Trends.interval q)) = Ok u
           /\ In s (sales db)
           /\ start_of (Trends.startDate q) <= s_date s <= end_of (Trends.endDate q) today
           /\ Trends.period o = date_trunc u (s_date s)
           /\ date_trunc u (start_of (Trends.startDate q)) <= Trends.period o
              <= end_of (Trends.endDate q) today).
Proof.
  split.
  - intros q data o H Ho.
    destruct (time_series_emitted db today q o H Ho)
      as (r & u & s & -> & _ & _ & Hu & (Hs & Hr & _) & Hp).
    exists u, s. simpl. repeat split; try tauto.
    + rewrite Hp. apply date_trunc_mono. lia.
    + rewrite Hp. pose proof (date_trunc_le u (s_date s)). lia.
  - intros q data o H Ho. unfold Trends.handler in H.
    apply respond_json in H as (rows & Hq & ->).
    apply in_map_iff in Ho as (r & <- & Hr).
    apply trends_rows in Hq as (u & Hu & _ & Hrows).
    destruct (Hrows r Hr) as (s & Hs & Hd & Hp).
    exists u, s. simpl. repeat split; try tauto.
    + rewrite Hp. apply date_trunc_mono. lia.
    + rewrite Hp. pose proof (date_trunc_le u (s_date s)). lia.
Qed.

Lemma periods_truncate_sales_in_range_witness :
  TimeSeries.handler Sample.db Sample.today Sample.late_january = json [Sample.january]
  /\ In Sample.january [Sample.january]
  /\ exists u s,
       trunc_unit (timeInterval (TimeSeries.interval Sample.late_january)) = Ok u
       /\ In s (sales Sample.db)
       /\ start_of (TimeSeries.startDate Sample.late_january) <= s_date s
          <= end_of (TimeSeries.endDate Sample.late_january) Sample.today
       /\ TimeSeries.period Sample.january = date_trunc u (s_date s)
       /\ date_trunc u (start_of (TimeSeries.startDate Sample.late_january))
          <= TimeSeries.period Sample.january
          <= end_of (TimeSeries.endDate Sample.late_january) Sample.today.
Proof.
  split; [vm_compute; reflexivity|]. split; [simpl; auto|].
  apply (proj1 (periods_truncate_sales_in_range Sample.db Sample.today)
               Sample.late_january [Sample.january] Sample.january).
  - vm_compute. reflexivity.
  - simpl. auto.
Defined.

(** C6 as stated fails: asked for 2021-01-15 to 2021-01-31 by month, both
    reports emit the bucket of 2021-01-01, which is before [startDate]. *)
Lemma period_before_startDate :
  TimeSeries.handler Sample.db Sample.today Sample.late_january = json [Sample.january]
  /\ TimeSeries.period Sample.january < start_of (TimeSeries.startDate Sample.late_january)
  /\ Trends.handler Sample.db Sample.today Sample.late_january_trend
     = json [Sample.january_trend]
  /\ Trends.period Sample.january_trend
     < start_of (Trends.startDate Sample.late_january_trend).
Proof. repeat split; vm_compute; reflexivity. Qed.

(** C1 at the failing input. When the total of the previous period is
    zero the growth expression divides by it: the query fails and the
    trend report of a store whose January sold for nothing is a 500, where
    the claim has a row for February with a [null] growth. *)
Theorem zero_previous_revenue_fails :
  (forall t p, (p == 0)%Q -> Trends.growth (Some t) (Some p) = Err division_by_zero)
  /\ Trends.run_query Sample.free_january "month" (start_of None) Sample.today
     = Err division_by_zero
  /\ Trends.handler Sample.free_january Sample.today Sample.trend
     = status 500 "Internal server error".
Proof.
  split; [exact growth_zero_prev|]. split; vm_compute; reflexivity.
Qed.

End BucketClaims.

(** ** Numerics *)

Section Numerics.

Import SQL Statement.




Lemma total_nonneg l : Forall (fun a => 0 <= a)%Q l -> (0 <= total l)%Q.
Proof.
  induction 1 as [|a l Ha Hl IH]; simpl; [apply Qle_refl|].
  replace 0%Q with (0 + 0)%Q by reflexivity. apply Qplus_le_compat; assumption.
Qed.

(** What [parseFloat(column) || 0] shows: the value of the column, 0 for
    [NULL]. *)
Lemma or_zero_parseFloat c :
  exists x, JS.or_zero (JS.parseFloat c) = JS.Num x
            /\ (x == match c with Some t => t | None => 0 end)%Q.
Proof.
  destruct c as [t|]; simpl.
  - destruct (Qeq_bool t 0) eqn:E; eexists; split; try reflexivity.
    apply Qeq_bool_iff in E. now rewrite E.
  - eexists. split; reflexivity.
Qed.

(** Rows in [DESC NULLS LAST] order of totals that are not negative show a
    column of numbers that never goes up. *)
Lemma ranked_descending A (f : A -> option Q) rows :
  (forall r t, In r rows -> f r = Some t -> 0 <= t)%Q ->
  StronglySorted (fun a b => ranks_before (f a) (f b)) rows ->
  descending (map (fun r => JS.or_zero (JS.parseFloat (f r))) rows).
Proof.
  intros Hpos Hs. unfold descending. apply StronglySorted_map.
  eapply StronglySorted_weaken; [|exact Hs].
  intros a b Ha Hb Hab. cbv beta in Hab.
  destruct (or_zero_parseFloat (f a)) as (x & -> & Hx).
  destruct (or_zero_parseFloat (f b)) as (y & -> & Hy).
  rewrite Hx, Hy. unfold ranks_before in Hab.
  destruct (f b) as [tb|] eqn:Eb.
  - destruct (f a) as [ta|]; [exact Hab | contradiction].
  - destruct (f a) as [ta|] eqn:Ea; [exact (Hpos a ta Ha Ea) | apply Qle_refl].
Qed.

Lemma desc_nulls_last_ranks a b : desc_nulls_last a b = true <-> ranks_before a b.
Proof.
  unfold desc_nulls_last, ranks_before. destruct a, b; try tauto.
  - apply Qle_bool_iff.
  - split; [discriminate | tauto].
Qed.

Lemma desc_nulls_last_total a b :
  desc_nulls_last a b = false -> desc_nulls_last b a = true.
Proof.
  unfold desc_nulls_last. destruct a as [x|], b as [y|]; try congruence.
  intros H. apply Qle_bool_iff.
  destruct (Qlt_le_dec x y) as [L | L].
  - apply Qlt_le_weak, L.
  - apply Qle_bool_iff in L. congruence.
Qed.

Lemma desc_nulls_last_trans a b c :
  desc_nulls_last a b = true -> desc_nulls_last b c = true -> desc_nulls_last a c = true.
Proof.
  unfold desc_nulls_last. destruct a as [x|], b as [y|], c as [z|]; try congruence.
  rewrite !Qle_bool_iff. intros H1 H2. eapply Qle_trans; eauto.
Qed.

(** What [ORDER BY total_revenue DESC NULLS LAST] leaves. *)
Lemma order_by_ranks A (f : A -> option Q) l :
  StronglySorted (fun a b => ranks_before (f a) (f b))
                 (order_by (fun a b => desc_nulls_last (f a) (f b)) l).
Proof.
  eapply StronglySorted_ind with
    (P := fun l' => StronglySorted (fun a b => ranks_before (f a) (f b)) l').
  - constructor.
  - intros a l' _ IH Hf. constructor; [exact IH|].
    eapply Forall_impl; [|exact Hf]. intros b. apply desc_nulls_last_ranks.
  - apply order_by_sorted.
    + intros a b. apply desc_nulls_last_total.
    + intros a b c. apply desc_nulls_last_trans.
Qed.

End Numerics.

(** ** Aggregates over a left join *)

Section NullableColumns.

Import SQL.

Lemma non_null_option_map A B C (h : A -> option B) (f : B -> C) l :
  non_null (map (fun r => option_map f (h r)) l) = map f (non_null (map h l)).
Proof.
  induction l as [|a l IH]; simpl; [reflexivity|].
  destruct (h a); simpl; now rewrite IH.
Qed.

(** [SUM] is [NULL] exactly when [COUNT] of a column of the same table is
    zero. *)
Lemma SUM_null_COUNT A B (h : A -> option B) (amount : B -> Q) (id : B -> Z) l :
  SUM (map (fun r => option_map amount (h r)) l) = None
  <-> COUNT (map (fun r => option_map id (h r)) l) = 0.
Proof.
  unfold SUM, COUNT. rewrite !non_null_option_map.
  destruct (non_null (map h l)); simpl; split; intros; try reflexivity; try discriminate;
    lia.
Qed.

Lemma all_null_aggregates A B (h : A -> option B) (amount : B -> Q) (id : B -> Z) l :
  (forall r, In r l -> h r = None) ->
  COUNT (map (fun r => option_map id (h r)) l) = 0
  /\ SUM (map (fun r => option_map amount (h r)) l) = None
  /\ AVG (map (fun r => option_map amount (h r)) l) = None.
Proof.
  intros H. unfold COUNT, SUM, AVG. rewrite !non_null_option_map.
  rewrite (non_null_all_null h l H). simpl. auto.
Qed.

(** [SUM] of a column of sales that are not negative is not negative. *)
Lemma SUM_nonneg A B (h : A -> option B) (amount : B -> Q) l t :
  (forall r b, In r l -> h r = Some b -> 0 <= amount b)%Q ->
  SUM (map (fun r => option_map amount (h r)) l) = Some t -> (0 <= t)%Q.
Proof.
  intros H. unfold SUM. rewrite non_null_option_map.
  destruct (non_null (map h l)) as [|b0 bs] eqn:E; [discriminate|].
  intros Ht. injection Ht as <-.
  apply (@total_nonneg (map amount (b0 :: bs))), Forall_forall.
  intros a Ha. apply in_map_iff in Ha as (b & <- & Hb).
  rewrite <- E in Hb. apply In_non_null, in_map_iff in Hb as (r & Hr & Hin). eauto.
Qed.

End NullableColumns.

(** ** The user report *)

Section UsersFacts.

Import Date Store SQL Http Statement Users.

Lemma users_from_row db lo hi j :
  In j (from db lo hi) ->
  In (j_user j) (users db)
  /\ (forall s, j_sale j = Some s ->
                In s (sales db) /\ s_user_id s = u_id (j_user j)
                /\ between (s_date s) lo hi = true)
  /\ (j_sale j = None ->
      forall s, In s (sales db) -> s_user_id s = u_id (j_user j) ->
                between (s_date s) lo hi = false).
Proof.
  destruct j as [[[u os] oug] og]. unfold from, j_user, j_sale. simpl.
  intros H. apply In_left_join in H as [H _]. apply In_left_join in H as [H _].
  apply In_left_join in H as [Hu Hs]. split; [exact Hu|]. split.
  - intros s ->. destruct Hs as [Hs Hon]. apply andb_true_iff in Hon as [Hid Hb].
    apply Z.eqb_eq in Hid. auto.
  - intros ->. intros s Hin Hid. specialize (Hs s Hin).
    apply andb_false_iff in Hs as [Hs | Hs]; [|exact Hs].
    apply Z.eqb_neq in Hs. congruence.
Qed.

Lemma users_from_covers db lo hi u :
  In u (users db) -> exists j, In j (from db lo hi) /\ j_user j = u.
Proof.
  intros H. unfold from.
  destruct (left_join_left (fun u s => (u_id u =? s_user_id s) && between (s_date s) lo hi)
                           (users db) (sales db) u H) as [os H1].
  destruct (left_join_left (fun r ug => u_id (fst r) =? ug_user_id ug) _ (user_groups db)
                           _ H1) as [oug H2].
  destruct (left_join_left (fun (r : user * option sale * option user_group) g =>
                              match snd r with
                              | Some ug => ug_group_id ug =? g_id g
                              | None => false
                              end) _ (Store.groups db) _ H2) as [og H3].
  exists (u, os, oug, og). split; [exact H3 | reflexivity].
Qed.

Lemma users_keys db lo hi k :
  In k (map key_of (from db lo hi)) <-> In k (map user_key (users db)).
Proof.
  rewrite !in_map_iff. split.
  - intros (j & <- & Hj). exists (j_user j). split; [reflexivity|].
    now apply users_from_row in Hj.
  - intros (u & <- & Hu). destruct (users_from_covers db lo hi u Hu) as (j & Hj & <-).
    exists j. split; [reflexivity | exact Hj].
Qed.

Lemma users_select k g r :
  select (k, g) = Ok r ->
  (Row.id r, Row.name r, Row.role r) = k
  /\ Row.sale_count r = COUNT (map (fun j => option_map s_id (j_sale j)) g)
  /\ Row.total_revenue r = SUM (map (fun j => option_map s_amount (j_sale j)) g)
  /\ cast_null_10_2 (AVG (map (fun j => option_map s_amount (j_sale j)) g))
     = Ok (Row.avg_revenue r)
  /\ Row.groups r = map (fun j => option_map g_name (j_group j)) g.
Proof.
  unfold select. simpl.
  destruct (cast_null_10_2 _) as [avg|e]; simpl; intros H; [|discriminate].
  injection H as <-. simpl. destruct k as [[i n] ro]. auto.
Qed.


Lemma no_negative_amount_sale db s :
  no_negative_amount db -> In s (sales db) -> (0 <= s_amount s)%Q.
Proof.
  unfold no_negative_amount. rewrite forallb_forall. intros H Hs.
  now apply Qle_bool_iff, H.
Qed.


Lemma users_ranked db lo hi rows :
  ranked db lo hi = Ok rows ->
  List.length rows = List.length (distinct_users db)
  /\ StronglySorted
       (fun a b => ranks_before (Row.total_revenue a) (Row.total_revenue b)) rows
  /\ (forall r, In r rows ->
        exists g,
          (forall j, In j g <->
                     In j (from db lo hi) /\ key_of j = (Row.id r, Row.name r, Row.role r))
          /\ select ((Row.id r, Row.name r, Row.role r), g) = Ok r)
  /\ (forall u, In u (users db) ->
        exists r, In r rows /\ (Row.id r, Row.name r, Row.role r) = user_key u).
Proof.
  unfold ranked.
  destruct (mapM select _) as [selected|e] eqn:Es; simpl; intros H; [|discriminate].
  injection H as <-. split; [|split; [|split]].
  - rewrite order_by_length, (mapM_length _ _ Es), group_by_length.
    apply nodup_length_same, users_keys.
  - apply order_by_ranks.
  - intros r Hr. apply In_order_by in Hr.
    destruct (mapM_In _ _ _ Es Hr) as ([k g] & Hg & Hsel).
    pose proof (users_select _ _ Hsel) as (Hk & _). rewrite Hk.
    apply In_group_by in Hg as [_ Hg]. eauto.
  - intros u Hu. destruct (users_from_covers db lo hi u Hu) as (j & Hj & <-).
    destruct (group_by_key key_dec key_of _ _ Hj) as [g Hg].
    destruct (mapM_In_left _ _ _ Es Hg) as (r & Hr & Hsel).
    exists r. split; [now apply In_order_by|].
    now apply users_select in Hsel.
Qed.


(** The response of the handler, read back. *)
Lemma users_emitted db today (q : query) data :
  handler db today q = json data ->
  exists n rows,
    parseInt_limit (limit q) = Some n
    /\ 0 <= n
    /\ ranked db (start_of (startDate q)) (end_of (endDate q) today) = Ok rows
    /\ data = map responseData (firstn (Z.to_nat n) rows).
Proof.
  unfold handler, run_query. intros H. apply respond_json in H as (rows & Hq & ->).
  destruct (parseInt_limit (limit q)) as [n|]; [|discriminate].
  destruct (bigint n); [|discriminate].
  destruct (ranked db _ _) as [ranked|e]; simpl in Hq; [|discriminate].
  unfold LIMIT in Hq. destruct (n <? 0) eqn:En; [discriminate|].
  injection Hq as <-. apply Z.ltb_ge in En. eauto 6.
Qed.

End UsersFacts.

(** ** The group report *)

Section GroupsFacts.

Import Date Store SQL Http Statement Groups.

Lemma groups_from_row db lo hi j :
  In j (from db lo hi) ->
  In (j_group j) (Store.groups db)
  /\ (forall s, j_sale j = Some s ->
                In s (sales db) /\ exists ug, j_member j = Some ug).
Proof.
  destruct j as [[g oug] os]. unfold from, j_group, j_sale, j_member. simpl.
  intros H. apply In_left_join in H as [H Hs]. apply In_left_join in H as [Hg _].
  split; [exact Hg|]. intros s ->. simpl in Hs. destruct Hs as [Hin Hs].
  split; [exact Hin|].
  destruct oug as [ug|]; [eauto | discriminate].
Qed.

Lemma groups_from_covers db lo hi g :
  In g (Store.groups db) -> exists j, In j (from db lo hi) /\ j_group j = g.
Proof.
  intros H. unfold from.
  destruct (left_join_left (fun g ug => g_id g =? ug_group_id ug)
                           (Store.groups db) (user_groups db) g H) as [oug H1].
  destruct (left_join_left (fun (r : group * option user_group) s =>
                              match snd r with
                              | Some ug =>
                                  (ug_user_id ug =? s_user_id s)
                                  && between (s_date s) lo hi
                              | None => false
                              end) _ (sales db) _ H1) as [os H2].
  exists (g, oug, os). split; [exact H2 | reflexivity].
Qed.

Lemma groups_keys db lo hi k :
  In k (map key_of (from db lo hi)) <-> In k (map group_key (Store.groups db)).
Proof.
  rewrite !in_map_iff. split.
  - intros (j & <- & Hj). exists (j_group j). split; [reflexivity|].
    now apply groups_from_row in Hj.
  - intros (g & <- & Hg). destruct (groups_from_covers db lo hi g Hg) as (j & Hj & <-).
    exists j. split; [reflexivity | exact Hj].
Qed.

Lemma groups_select k g r :
  select (k, g) = Ok r ->
  Row.member_count r
  = COUNT_DISTINCT (map (fun j => option_map ug_user_id (j_member j)) g)
  /\ Row.sale_count r = COUNT (map (fun j => option_map s_id (j_sale j)) g)
  /\ Row.total_revenue r = SUM (map (fun j => option_map s_amount (j_sale j)) g)
  /\ div (Row.total_revenue r) (Some (inject_Z (Row.member_count r)))
     = Ok (Row.avg_revenue_per_member r).
Proof.
  unfold select. simpl.
  destruct (cast_null_10_2 _) as [avg|e]; simpl; [|discriminate].
  destruct (div _ _) as [per|e] eqn:Ed; simpl; intros H; [|discriminate].
  injection H as <-. simpl. auto.
Qed.



Lemma groups_rows db lo hi rows :
  run_query db lo hi = Ok rows ->
  List.length rows = List.length (distinct_groups db)
  /\ StronglySorted
       (fun a b => ranks_before (Row.total_revenue a) (Row.total_revenue b)) rows
  /\ forall r, In r rows ->
       exists k g, (forall j, In j g -> In j (from db lo hi)) /\ select (k, g) = Ok r.
Proof.
  unfold run_query.
  destruct (mapM select _) as [selected|e] eqn:Es; simpl; intros H; [|discriminate].
  injection H as <-. split; [|split].
  - rewrite order_by_length, (mapM_length _ _ Es), group_by_length.
    apply nodup_length_same, groups_keys.
  - apply order_by_ranks.
  - intros r Hr. apply In_order_by in Hr.
    destruct (mapM_In _ _ _ Es Hr) as ([k g] & Hg & Hsel).
    apply In_group_by in Hg as [_ Hg]. exists k, g. split; [|exact Hsel].
    intros j Hj. now apply Hg.
Qed.


End GroupsFacts.

(** ** The claims on the user report *)

Section UsersClaims.

Import Date Store SQL Http Statement.

(** C2, as the code has it. Every user is a row of the ranking the limit
    cuts, also with no matching sale; a row of a user with no sale in the
    date range, where it is emitted, has [saleCount] 0 and the number 0
    (not [null]) as [totalRevenue] and [averageRevenue]. *)
Theorem users_without_sales_show_zero db today (q : Users.query) data :
  Users.handler db today q = json data ->
  (exists n rows,
      Users.parseInt_limit (Users.limit q) = Some n
      /\ Users.ranked db (start_of (Users.startDate q)) (end_of (Users.endDate q) today)
         = Ok rows
      /\ data = map Users.responseData (firstn (Z.to_nat n) rows)
      /\ forall u, In u (users db) ->
           exists r, In r rows
                     /\ (Users.Row.id r, Users.Row.name r, Users.Row.role r) = user_key u)
  /\ forall o, In o data ->
       (forall s, In s (sales db) -> s_user_id s = Users.userId o ->
                  between (s_date s) (start_of (Users.startDate q))
                          (end_of (Users.endDate q) today) = false) ->
       Users.saleCount o = 0
       /\ Users.totalRevenue o = JS.Num 0
       /\ Users.averageRevenue o = JS.Num 0
       /\ JS.to_json (Users.totalRevenue o) = Some 0%Q.
Proof.
  intros H. apply users_emitted in H as (n & rows & Hn & Hpos & Hr & ->).
  pose proof (users_ranked _ _ _ Hr) as (_ & _ & Hrows & Hall).
  split; [exists n, rows; auto|].
  intros o Ho Hnone. apply in_map_iff in Ho as (r & <- & Hin).
  apply firstn_In in Hin. destruct (Hrows r Hin) as (g & Hg & Hsel).
  apply users_select in Hsel as (_ & Hc & Ht & Ha & _).
  assert (Hnull : forall j, In j g -> Users.j_sale j = None).
  { intros j Hj. apply Hg in Hj as [Hj Hk].
    destruct (Users.j_sale j) as [s|] eqn:Es; [|reflexivity].
    apply users_from_row in Hj as (_ & Hs & _). destruct (Hs s Es) as (Hin' & Hid & Hb).
    specialize (Hnone s Hin'). simpl in Hnone.
    unfold Users.key_of in Hk. injection Hk as Hk _ _.
    rewrite Hnone in Hb; [discriminate | congruence]. }
  destruct (all_null_aggregates Users.j_sale s_amount s_id g Hnull) as (Ec & Es & Ea).
  unfold Users.responseData. simpl.
  rewrite Hc, Ht, Ec, Es. rewrite Ea in Ha. simpl in Ha. injection Ha as <-.
  simpl. auto.
Qed.

Lemma users_without_sales_show_zero_witness :
  Users.handler Sample.db Sample.today (Sample.ranking None None)
  = json [Sample.gloria; Sample.quincy; Sample.tess]
  /\ (exists n rows,
        Users.parseInt_limit (Users.limit (Sample.ranking None None)) = Some n
        /\ Users.ranked Sample.db (start_of (Users.startDate (Sample.ranking None None)))
                        (end_of (Users.endDate (Sample.ranking None None)) Sample.today)
           = Ok rows
        /\ [Sample.gloria; Sample.quincy; Sample.tess]
           = map Users.responseData (firstn (Z.to_nat n) rows)
        /\ forall u, In u (users Sample.db) ->
             exists r, In r rows
                       /\ (Users.Row.id r, Users.Row.name r, Users.Row.role r) = user_key u)
  /\ forall o, In o [Sample.gloria; Sample.quincy; Sample.tess] ->
       (forall s, In s (sales Sample.db) -> s_user_id s = Users.userId o ->
                  between (s_date s) (start_of (Users.startDate (Sample.ranking None None)))
                          (end_of (Users.endDate (Sample.ranking None None)) Sample.today)
                  = false) ->
       Users.saleCount o = 0
       /\ Users.totalRevenue o = JS.Num 0
       /\ Users.averageRevenue o = JS.Num 0
       /\ JS.to_json (Users.totalRevenue o) = Some 0%Q.
Proof.
  split; [vm_compute; reflexivity|].
  apply (@users_without_sales_show_zero Sample.db Sample.today (Sample.ranking None None)).
  vm_compute. reflexivity.
Defined.

(** C2 as stated fails: Tess has no sale, and her row carries the number
    0, written 0 and not [null], as [totalRevenue] and [averageRevenue]. *)
Lemma user_without_sales_has_zero_not_null :
  Users.handler Sample.db Sample.today (Sample.ranking None None)
  = json [Sample.gloria; Sample.quincy; Sample.tess]
  /\ Users.saleCount Sample.tess = 0
  /\ JS.to_json (Users.totalRevenue Sample.tess) = Some 0%Q
  /\ JS.to_json (Users.averageRevenue Sample.tess) = Some 0%Q
  /\ JS.to_json (Users.totalRevenue Sample.tess) <> None.
Proof. repeat split; try (vm_compute; reflexivity). discriminate. Qed.

(** C5 at the failing input. [json_agg(g.name)] runs over the rows of the
    join, one per sale and membership: Gloria, in one group and with two
    sales in 2021, gets that group twice, and once when the range holds a
    single sale of hers; the claim has the one name in both cases. *)
Theorem groups_repeat_with_sales :
  Users.handler Sample.db Sample.today (Sample.ranking None None)
  = json [Sample.gloria; Sample.quincy; Sample.tess]
  /\ Users.groups Sample.gloria = ["Northeast Sales Team"; "Northeast Sales Team"]
  /\ Users.handler Sample.db Sample.today
                   (Sample.ranking (Some (days_from_civil 2021 1 10)) None)
     = json [Sample.gloria_early; Sample.quincy_early; Sample.tess]
  /\ Users.groups Sample.gloria_early = ["Northeast Sales Team"].
Proof. repeat split; vm_compute; reflexivity. Qed.

End UsersClaims.

(** ** The claims on ranking, truncation and the group report *)

Section RankingClaims.

Import Date Store SQL Http Statement.

(** C7. The rows of the user report and of the group report are the rows
    of the query in its order, [ORDER BY total_revenue DESC NULLS LAST]:
    of two rows the later one has a null total revenue, or neither has
    and the later total is not the larger; a total is null exactly for a
    row without sales. No amount being negative, the [totalRevenue] the
    rows show, 0 standing for null, never goes up. There is no parameter
    for the direction. *)
Theorem ranked_reports_are_ordered db today :
  (forall (q : Users.query) data,
      Users.handler db today q = json data ->
      exists rows,
        data = map Users.responseData rows
        /\ StronglySorted
             (fun a b => ranks_before (Users.Row.total_revenue a)
                                      (Users.Row.total_revenue b)) rows
        /\ (forall r, In r rows ->
               (Users.Row.total_revenue r = None <-> Users.Row.sale_count r = 0))
        /\ (no_negative_amount db -> descending (map Users.totalRevenue data)))
  /\ (forall (q : Groups.query) data,
         Groups.handler db today q = json data ->
         exists rows,
           data = map Groups.responseData rows
           /\ StronglySorted
                (fun a b => ranks_before (Groups.Row.total_revenue a)
                                         (Groups.Row.total_revenue b)) rows
           /\ (forall r, In r rows ->
                  (Groups.Row.total_revenue r = None <-> Groups.Row.sale_count r = 0))
           /\ (no_negative_amount db -> descending (map Groups.totalRevenue data))).
Proof.
  split.
  - intros q data H. apply users_emitted in H as (n & rows & _ & _ & Hr & ->).
    pose proof (users_ranked _ _ _ Hr) as (_ & Hs & Hrows & _).
    assert (Hs' : StronglySorted
                    (fun a b => ranks_before (Users.Row.total_revenue a)
                                             (Users.Row.total_revenue b))
                    (firstn (Z.to_nat n) rows))
      by apply StronglySorted_firstn, Hs.
    exists (firstn (Z.to_nat n) rows). split; [reflexivity|]. split; [exact Hs'|]. split.
    + intros r Hin. apply firstn_In in Hin. destruct (Hrows r Hin) as (g & _ & Hsel).
      apply users_select in Hsel as (_ & -> & -> & _). apply SUM_null_COUNT.
    + intros Hpos. rewrite map_map. unfold Users.responseData. simpl.
      apply ranked_descending; [|exact Hs'].
      intros r t Hin Ht. apply firstn_In in Hin. destruct (Hrows r Hin) as (g & Hg & Hsel).
      apply users_select in Hsel as (_ & _ & Hsum & _). rewrite Hsum in Ht.
      apply (SUM_nonneg Users.j_sale s_amount g) in Ht; [exact Ht|].
      intros j s Hj Hjs. apply Hg in Hj as [Hj _].
      apply users_from_row in Hj as (_ & Hsale & _).
      apply (@no_negative_amount_sale db s Hpos). now apply Hsale.
  - intros q data H. unfold Groups.handler in H.
    apply respond_json in H as (rows & Hq & ->).
    pose proof (groups_rows _ _ _ Hq) as (_ & Hs & Hrows).
    exists rows. split; [reflexivity|]. split; [exact Hs|]. split.
    + intros r Hin. destruct (Hrows r Hin) as (k & g & _ & Hsel).
      apply groups_select in Hsel as (_ & -> & -> & _). apply SUM_null_COUNT.
    + intros Hpos. rewrite map_map. unfold Groups.responseData. simpl.
      apply ranked_descending; [|exact Hs].
      intros r t Hin Ht. destruct (Hrows r Hin) as (k & g & Hg & Hsel).
      apply groups_select in Hsel as (_ & _ & Hsum & _). rewrite Hsum in Ht.
      apply (SUM_nonneg Groups.j_sale s_amount g) in Ht; [exact Ht|].
      intros j s Hj Hjs. apply Hg in Hj.
      apply groups_from_row in Hj as (_ & Hsale).
      apply (@no_negative_amount_sale db s Hpos). now apply Hsale.
Qed.

Lemma ranked_reports_are_ordered_witness :
  Users.handler Sample.db Sample.today (Sample.ranking None None)
  = json [Sample.gloria; Sample.quincy; Sample.tess]
  /\ no_negative_amount Sample.db
  /\ exists rows,
       [Sample.gloria; Sample.quincy; Sample.tess] = map Users.responseData rows
       /\ StronglySorted
            (fun a b => ranks_before (Users.Row.total_revenue a)
                                     (Users.Row.total_revenue b)) rows
       /\ (forall r, In r rows ->
              (Users.Row.total_revenue r = None <-> Users.Row.sale_count r = 0))
       /\ (no_negative_amount Sample.db ->
           descending (map Users.totalRevenue
                           [Sample.gloria; Sample.quincy; Sample.tess])).
Proof.
  split; [vm_compute; reflexivity|]. split; [reflexivity|].
  apply (proj1 (ranked_reports_are_ordered Sample.db Sample.today)
               (Sample.ranking None None)).
  vm_compute. reflexivity.
Defined.







End RankingClaims.

(** * More properties of the handlers *)

(** ** The request of the time-series report *)

Section TimeSeriesRequest.

Import Date Store SQL Http Statement.

(** X1. The unit spliced into the text of the query is always one of the
    five of [validIntervals], so [DATE_TRUNC] never sees a unit it does not
    know; an [interval] that is one of the five is kept as it is. *)
Theorem spliced_interval_is_a_unit (interval : option string) :
  In (timeInterval interval) validIntervals
  /\ (exists u, trunc_unit (timeInterval interval) = Ok u)
  /\ (forall i, interval = Some i -> In i validIntervals -> timeInterval interval = i).
Proof.
  split; [apply timeInterval_valid|]. split; [apply trunc_unit_timeInterval|].
  intros i -> Hi. unfold timeInterval. apply includes_In in Hi. now rewrite Hi.
Qed.




(** X4. Which fields a row of the time-series report carries is decided
    by [metric] alone: [period] always, [totalRevenue], [averageRevenue]
    and [saleCount] under [all] or under [totalRevenue], [avgRevenue] and
    [saleCount] respectively, [activeUsers] under [all] only. The metric
    that selects [averageRevenue] is spelt [avgRevenue]; any other word,
    [averageRevenue] included, leaves [period] alone. *)
Theorem metric_selects_fields db today (q : TimeSeries.query) data o :
  TimeSeries.handler db today q = json data ->
  In o data ->
  (TimeSeries.totalRevenue o <> None
   <-> TimeSeries.metric_of q = "all" \/ TimeSeries.metric_of q = "totalRevenue")
  /\ (TimeSeries.averageRevenue o <> None
      <-> TimeSeries.metric_of q = "all" \/ TimeSeries.metric_of q = "avgRevenue")
  /\ (TimeSeries.saleCount o <> None
      <-> TimeSeries.metric_of q = "all" \/ TimeSeries.metric_of q = "saleCount")
  /\ (TimeSeries.activeUsers o <> None <-> TimeSeries.metric_of q = "all").
Proof.
  intros H Ho. unfold TimeSeries.handler in H.
  destruct (TimeSeries.buildFilter q today) as [wc ps].
  apply respond_json in H as (rows & _ & ->).
  apply in_map_iff in Ho as (r & <- & _).
  unfold TimeSeries.responseData, TimeSeries.metric_is.
  cbn [TimeSeries.totalRevenue TimeSeries.averageRevenue TimeSeries.saleCount
       TimeSeries.activeUsers].
  repeat match goal with
         | |- context [includes ?n ?m] =>
             let E := fresh "E" in
             destruct (includes n m) eqn:E;
             [apply includes_In in E
             |assert (~ In m n) by (rewrite <- includes_In; congruence); clear E]
         end;
    simpl in *; repeat split; intros; try congruence; try tauto; intuition congruence.
Qed.

Lemma metric_selects_fields_witness :
  TimeSeries.handler Sample.db Sample.today (Sample.time_series (Some "17"))
  = json [Sample.february]
  /\ In Sample.february [Sample.february]
  /\ (TimeSeries.totalRevenue Sample.february <> None
      <-> TimeSeries.metric_of (Sample.time_series (Some "17")) = "all"
          \/ TimeSeries.metric_of (Sample.time_series (Some "17")) = "totalRevenue")
  /\ (TimeSeries.averageRevenue Sample.february <> None
      <-> TimeSeries.metric_of (Sample.time_series (Some "17")) = "all"
          \/ TimeSeries.metric_of (Sample.time_series (Some "17")) = "avgRevenue")
  /\ (TimeSeries.saleCount Sample.february <> None
      <-> TimeSeries.metric_of (Sample.time_series (Some "17")) = "all"
          \/ TimeSeries.metric_of (Sample.time_series (Some "17")) = "saleCount")
  /\ (TimeSeries.activeUsers Sample.february <> None
      <-> TimeSeries.metric_of (Sample.time_series (Some "17")) = "all").
Proof.
  split; [vm_compute; reflexivity|]. split; [simpl; auto|].
  apply (@metric_selects_fields Sample.db Sample.today (Sample.time_series (Some "17"))
           [Sample.february] Sample.february).
  - vm_compute. reflexivity.
  - simpl. auto.
Defined.

End TimeSeriesRequest.

(** ** Buckets *)

Section Buckets.

Import Date SQL.

Lemma first_day_next i : first_day i < first_day (i + 1).
Proof.
  unfold first_day, year_start, month_start.
  assert ((i + 1) / 12 = i / 12 /\ (i + 1) mod 12 = i mod 12 + 1 /\ i mod 12 < 11
          \/ (i + 1) / 12 = i / 12 + 1 /\ (i + 1) mod 12 = 0 /\ i mod 12 = 11)
    as [(-> & -> & Hm) | (-> & -> & ->)] by (Z.div_mod_to_equations; lia).
  - assert (0 <= i mod 12) by (Z.div_mod_to_equations; lia).
    generalize dependent (i mod 12). intros. Z.div_mod_to_equations. lia.
  - generalize (i / 12). intros. Z.div_mod_to_equations. lia.
Qed.

Lemma month_index_first_day i : month_index (first_day i) = i.
Proof.
  pose proof (month_index_bucket (first_day i)) as [Hlo Hhi].
  pose proof (first_day_next i) as Hn.
  destruct (Z.lt_trichotomy (month_index (first_day i)) i) as [L | [E | G]].
  - assert (first_day (month_index (first_day i) + 1) <= first_day i)
      by (apply first_day_mono; lia). lia.
  - exact E.
  - assert (first_day (i + 1) <= first_day (month_index (first_day i)))
      by (apply first_day_mono; lia). lia.
Qed.

(** The start of a bucket is in that bucket. *)
Lemma date_trunc_idempotent u z : date_trunc u (date_trunc u z) = date_trunc u z.
Proof.
  assert (M : forall u', u' = Month \/ u' = Quarter \/ u' = Year ->
                         date_trunc u' (date_trunc u' z) = date_trunc u' z).
  { intros u' Hu. rewrite (date_trunc_first_day z Hu).
    rewrite (date_trunc_first_day _ Hu), month_index_first_day. f_equal.
    destruct Hu as [-> | [-> | ->]]; unfold bucket_index;
      try reflexivity; Z.div_mod_to_equations; lia. }
  destruct u; try (apply M; tauto).
  - reflexivity.
  - unfold date_trunc. Z.div_mod_to_equations. lia.
Qed.

Section Projections.

Variables (A B C : Type).
Variable f : A -> result B.
Variable ha : A -> C.
Variable hb : B -> C.
Hypothesis f_keeps : forall a b, f a = Ok b -> hb b = ha a.

Lemma mapM_map l bs : mapM f l = Ok bs -> map hb bs = map ha l.
Proof.
  intros H. apply mapM_Forall2 in H. induction H; simpl; [reflexivity|].
  f_equal; auto.
Qed.

End Projections.

Lemma group_by_NoDup R K (K_dec : forall x y : K, {x = y} + {x <> y}) (key : R -> K) rows :
  NoDup (map fst (group_by K_dec key rows)).
Proof.
  unfold group_by. rewrite map_map. simpl. rewrite map_id. apply NoDup_nodup.
Qed.

Lemma order_by_map A B (before : B -> B -> bool) (f : A -> B) l :
  map f (order_by (fun a b => before (f a) (f b)) l) = order_by before (map f l).
Proof.
  induction l as [|x l IH]; simpl; [reflexivity|]. rewrite <- IH.
  generalize (order_by (fun a b => before (f a) (f b)) l). intros s.
  induction s as [|y s IHs]; simpl; [reflexivity|].
  destruct (before (f x) (f y)); simpl; [reflexivity|]. now rewrite IHs.
Qed.

(** Distinct dates in [ASC] order go strictly up. *)
Lemma order_by_asc_strict l :
  NoDup l -> StronglySorted Z.lt (order_by asc l).
Proof.
  intros Hn.
  assert (Hs : StronglySorted (fun a b => asc a b = true) (order_by asc l)).
  { apply order_by_sorted; unfold asc; intros; rewrite ?Z.leb_le, ?Z.leb_gt in *; lia. }
  assert (Hd : NoDup (order_by asc l))
    by (eapply Permutation_NoDup; [symmetry; apply order_by_Permutation | exact Hn]).
  induction Hs as [|x s Hs IH Hx]; constructor.
  - apply IH. now inversion Hd.
  - inversion Hd as [|? ? Hnin Hd']; subst. rewrite Forall_forall in *.
    intros y Hy. specialize (Hx y Hy). unfold asc in Hx. apply Z.leb_le in Hx.
    assert (x <> y) by (intros ->; contradiction). lia.
Qed.

(** A list in order is left as it is. *)
Lemma order_by_sorted_id A (before : A -> A -> bool) l :
  StronglySorted (fun a b => before a b = true) l -> order_by before l = l.
Proof.
  induction 1 as [|x l Hs IH Hx]; simpl; [reflexivity|]. rewrite IH.
  destruct l as [|y l]; simpl; [reflexivity|].
  inversion Hx; subst. now rewrite H1.
Qed.

End Buckets.

(** ** More on the time-series report *)

Section TimeSeriesMore.

Import Date Store SQL Http Statement TimeSeries.

Lemma non_null_map_Some A B (f : A -> B) l : non_null (map (fun a => Some (f a)) l) = map f l.
Proof. induction l as [|a l IH]; simpl; [reflexivity|]. now rewrite IH. Qed.

(** The aggregates over a column that is never null. *)
Lemma COUNT_of_map A B (f : A -> B) l :
  COUNT (map (fun a => Some (f a)) l) = Z.of_nat (List.length l).
Proof. unfold COUNT. now rewrite non_null_map_Some, length_map. Qed.

Lemma SUM_of_map A (f : A -> Q) l :
  l <> [] -> SUM (map (fun a => Some (f a)) l) = Some (total (map f l)).
Proof.
  intros H. unfold SUM. rewrite non_null_map_Some. destruct l; [congruence | reflexivity].
Qed.

Lemma AVG_of_map A (f : A -> Q) l :
  l <> [] ->
  AVG (map (fun a => Some (f a)) l)
  = Some (total (map f l) / inject_Z (Z.of_nat (List.length l)))%Q.
Proof.
  intros H. unfold AVG. rewrite non_null_map_Some.
  destruct l as [|a l]; [congruence|]. cbn [map]. rewrite <- (length_map f (a :: l)).
  reflexivity.
Qed.

Lemma COUNT_DISTINCT_of_map A (f : A -> Z) l :
  l <> [] -> 1 <= COUNT_DISTINCT (map (fun a => Some (f a)) l) <= Z.of_nat (List.length l).
Proof.
  intros H. unfold COUNT_DISTINCT. rewrite non_null_map_Some.
  pose proof (NoDup_incl_length (NoDup_nodup Z.eq_dec (map f l)) (l' := map f l)) as Hle.
  rewrite length_map in Hle.
  assert (Hinc : incl (nodup Z.eq_dec (map f l)) (map f l))
    by (intros y Hy; now apply nodup_In in Hy).
  specialize (Hle Hinc).
  destruct l as [|a l]; [congruence|].
  assert (Hin : In (f a) (nodup Z.eq_dec (map f (a :: l)))) by (apply nodup_In; simpl; auto).
  destruct (nodup Z.eq_dec (map f (a :: l))) as [|x xs]; [contradiction|].
  cbn [List.length] in *. lia.
Qed.

Lemma time_series_select_aggregates p (g : list joined) r :
  g <> [] ->
  select (p, g) = Ok r ->
  exists t a,
    Row.total_revenue r = Some t
    /\ Row.avg_revenue r = Some a
    /\ cast_numeric_10_2 (t / inject_Z (Row.sale_count r)) = Ok a
    /\ 1 <= Row.active_users r <= Row.sale_count r.
Proof.
  intros Hg. unfold select. cbn [fst snd].
  rewrite (AVG_of_map _ Hg), (SUM_of_map _ Hg), COUNT_of_map.
  pose proof (COUNT_DISTINCT_of_map (fun j : joined => s_user_id (fst (fst j))) Hg) as Hd.
  unfold cast_null_10_2.
  destruct (cast_numeric_10_2 _) as [a|e] eqn:Ea; unfold bind; intros H; [|discriminate].
  injection H as <-. eexists. exists a.
  split; [reflexivity|]. split; [reflexivity|]. split; [exact Ea | exact Hd].
Qed.

Lemma time_series_select_period g r : select g = Ok r -> Row.period r = fst g.
Proof.
  unfold select. destruct (cast_null_10_2 _); simpl; intros H; [|discriminate].
  now injection H as <-.
Qed.

(** The rows come out in the order of their periods, one per bucket. *)
Lemma time_series_periods db ti with_groups whereClauses params rows :
  run_query db ti with_groups whereClauses params = Ok rows ->
  StronglySorted Z.lt (map Row.period rows).
Proof.
  unfold run_query.
  destruct (trunc_unit ti) as [u|e]; simpl; [|discriminate].
  destruct (mapM (bind_clause params) whereClauses) as [tests|e]; simpl; [|discriminate].
  destruct (mapM select _) as [selected|e] eqn:Es; simpl; intros H; [|discriminate].
  injection H as <-.
  rewrite (order_by_map asc Row.period).
  pose proof (mapM_map select (fun g => fst g) Row.period time_series_select_period _ Es)
    as E.
  unfold date in *. rewrite E.
  apply order_by_asc_strict, group_by_NoDup.
Qed.

(** A joined row for a sale, its user and, when the groups are joined, a
    membership of that user. *)
Lemma time_series_from_In db with_groups s u :
  In s (sales db) -> In u (users db) -> s_user_id s = u_id u ->
  (with_groups = false -> In (s, u, None) (from db with_groups))
  /\ (with_groups = true ->
      forall ug, In ug (user_groups db) -> ug_user_id ug = u_id u ->
                 In (s, u, Some ug) (from db with_groups)).
Proof.
  intros Hs Hu Hid.
  assert (Hsu : In (s, u) (join (fun s u => s_user_id s =? u_id u) (sales db) (users db)))
    by (apply In_join; repeat split; auto; now apply Z.eqb_eq).
  split; intros ->; unfold from.
  - apply in_map_iff. exists (s, u). auto.
  - intros ug Hug Hm. apply in_map_iff. exists (s, u, ug). split; [reflexivity|].
    apply In_join. repeat split; auto. simpl. apply Z.eqb_eq. congruence.
Qed.

(** A joined row within the dates and with the ids asked for passes the
    filter. *)
Lemma time_series_filter_passes q today tests (j : joined) :
  mapM (bind_clause (snd (buildFilter q today))) (fst (buildFilter q today)) = Ok tests ->
  start_of (startDate q) <= s_date (fst (fst j)) <= end_of (endDate q) today ->
  (JS.truthy (userId q) = true -> parseInt (userId q) = Some (s_user_id (fst (fst j)))) ->
  (JS.truthy (groupId q) = true ->
   exists ug, snd j = Some ug /\ parseInt (groupId q) = Some (ug_group_id ug)) ->
  forallb (fun t => t j) tests = true.
Proof.
  unfold buildFilter. intros H Hd Hu Hg. revert H.
  destruct (JS.truthy (userId q)), (JS.truthy (groupId q)); simpl;
    try (rewrite (Hu eq_refl)); simpl;
    try (destruct (Hg eq_refl) as (ug & Eug & ->)); simpl;
    intros H; injection H as <-; simpl; rewrite ?Eug;
    rewrite ?andb_true_iff, ?Z.leb_le, ?Z.eqb_eq; repeat split; auto; lia.
Qed.



End TimeSeriesMore.

(** ** Groups as a partition of the rows *)

Section Partition.

Import SQL Statement.

Variables (R K : Type).
Variable K_dec : forall x y : K, {x = y} + {x <> y}.
Variable key : R -> K.

Lemma one_key_matches (ks : list K) (k : K) :
  NoDup ks -> In k ks ->
  sum_counts (map (fun k' => if K_dec k k' then 1 else 0) ks) = 1.
Proof.
  induction 1 as [|k0 ks Hnin Hnd IH]; simpl; [tauto|].
  intros [-> | Hin].
  - destruct (K_dec k k) as [_|N]; [|congruence].
    assert (Z : sum_counts (map (fun k' => if K_dec k k' then 1 else 0) ks) = 0).
    { clear IH Hnd. induction ks as [|k1 ks IH]; simpl; [reflexivity|].
      destruct (K_dec k k1) as [->|_]; [exfalso; apply Hnin; simpl; auto|].
      rewrite IH; [reflexivity|]. intros H. apply Hnin. simpl. auto. }
    unfold sum_counts in *. lia.
  - destruct (K_dec k k0) as [->|_]; [contradiction|].
    specialize (IH Hin). unfold sum_counts in *. lia.
Qed.

Lemma filters_partition (ks : list K) rows :
  NoDup ks -> (forall r, In r rows -> In (key r) ks) ->
  sum_counts
    (map (fun k => Z.of_nat (List.length
                               (filter (fun r => if K_dec (key r) k then true else false)
                                       rows))) ks)
  = Z.of_nat (List.length rows).
Proof.
  intros Hnd. induction rows as [|r rows IH]; intros Hin.
  - clear Hin Hnd. induction ks as [|k ks IHk]; [reflexivity|].
    unfold sum_counts in *. simpl in *. exact IHk.
  - assert (E : forall k,
               Z.of_nat (List.length
                           (filter (fun r => if K_dec (key r) k then true else false)
                                   (r :: rows)))
               = (if K_dec (key r) k then 1 else 0)
                 + Z.of_nat (List.length
                               (filter (fun r => if K_dec (key r) k then true else false)
                                       rows))).
    { intros k. cbn [filter]. destruct (K_dec (key r) k); cbn [List.length];
        rewrite ?Nat2Z.inj_succ; lia. }
    rewrite (map_ext _ _ E).
    assert (S : forall (f g : K -> Z) l,
               sum_counts (map (fun k => f k + g k) l)
               = sum_counts (map f l) + sum_counts (map g l)).
    { intros f g l. induction l as [|a l IHl]; simpl; [reflexivity|].
      unfold sum_counts in *. simpl. lia. }
    rewrite S, IH by (intros r' Hr'; apply Hin; simpl; auto).
    rewrite one_key_matches; [|exact Hnd | apply Hin; simpl; auto].
    cbn [List.length]. rewrite Nat2Z.inj_succ. lia.
Qed.

(** The groups of [GROUP BY] hold every row once. *)
Lemma group_by_partition rows :
  sum_counts (map (fun g => Z.of_nat (List.length (snd g))) (group_by K_dec key rows))
  = Z.of_nat (List.length rows).
Proof.
  unfold group_by. rewrite map_map. simpl.
  apply filters_partition; [apply NoDup_nodup|].
  intros r Hr. apply nodup_In, in_map, Hr.
Qed.

End Partition.

Lemma sum_counts_Permutation l l' :
  Permutation l l' -> Statement.sum_counts l = Statement.sum_counts l'.
Proof.
  unfold Statement.sum_counts. induction 1; simpl; lia.
Qed.

Lemma StronglySorted_of_map A B (f : A -> B) (R : B -> B -> Prop) l :
  StronglySorted R (map f l) -> StronglySorted (fun a b => R (f a) (f b)) l.
Proof.
  induction l as [|x l IH]; simpl; intros H; [constructor|].
  inversion H; subst. constructor; [auto|].
  rewrite Forall_forall in *. intros y Hy. apply H3, in_map, Hy.
Qed.

(** ** More on the trend report *)

Section TrendsMore.

Import Date Store SQL Http Statement Trends.

Lemma lag_counts prev l : map Stats.sale_count (lag prev l) = map snd l.
Proof.
  revert prev. induction l as [|[[p t] n] l IH]; intros prev; simpl; [reflexivity|].
  now rewrite IH.
Qed.

Lemma trends_stats_sorted db u lo hi :
  StronglySorted Z.lt (map Stats.period (stats db u lo hi)).
Proof.
  unfold stats. rewrite lag_periods.
  rewrite (order_by_map asc (fun a : date * option Q * Z => fst (fst a))).
  rewrite map_map. simpl. apply order_by_asc_strict.
  rewrite <- (map_ext fst (fun x => fst x)) by reflexivity. apply group_by_NoDup.
Qed.

(** The last [ORDER BY] finds the rows in order already: the rows of the
    result are the rows of [stats], selected one by one. *)
Lemma trends_rows_selected db ti lo hi rows :
  run_query db ti lo hi = Ok rows ->
  exists u, trunc_unit ti = Ok u /\ mapM select (stats db u lo hi) = Ok rows.
Proof.
  unfold run_query. destruct (trunc_unit ti) as [u|e]; simpl; [|discriminate].
  destruct (mapM select _) as [selected|e] eqn:Es; simpl; intros H; [|discriminate].
  injection H as <-. exists u. split; [reflexivity|]. rewrite Es. f_equal.
  symmetry. apply order_by_sorted_id.
  pose proof (trends_stats_sorted db u lo hi) as Hs.
  pose proof (mapM_map select Stats.period Row.period trends_select_period _ Es) as E.
  unfold date in *. rewrite <- E in Hs. apply StronglySorted_of_map in Hs.
  eapply StronglySorted_weaken; [|exact Hs].
  intros a b _ _ Hab. unfold asc. apply Z.leb_le. cbv beta in Hab. lia.
Qed.




End TrendsMore.

(** ** Rows of the time-series and trend reports *)

Section BucketRows.

Import Date Store SQL Http Statement.

Lemma time_series_groups db ti with_groups whereClauses params rows :
  TimeSeries.run_query db ti with_groups whereClauses params = Ok rows ->
  forall r, In r rows ->
    exists g, g <> [] /\ TimeSeries.select (TimeSeries.Row.period r, g) = Ok r.
Proof.
  unfold TimeSeries.run_query.
  destruct (trunc_unit ti) as [u|e]; simpl; [|discriminate].
  destruct (mapM (TimeSeries.bind_clause params) whereClauses) as [tests|e]; simpl;
    [|discriminate].
  destruct (mapM TimeSeries.select _) as [selected|e] eqn:Es; simpl; intros H;
    [|discriminate].
  injection H as <-. intros r Hr. apply In_order_by in Hr.
  destruct (mapM_In _ _ _ Es Hr) as ([p g] & Hg & Hsel).
  apply In_group_by in Hg as [Hne _].
  rewrite (time_series_select_period _ Hsel). eauto.
Qed.

Lemma time_series_complete db ti with_groups whereClauses params rows u tests :
  TimeSeries.run_query db ti with_groups whereClauses params = Ok rows ->
  trunc_unit ti = Ok u ->
  mapM (TimeSeries.bind_clause params) whereClauses = Ok tests ->
  forall j, In j (TimeSeries.from db with_groups) ->
            forallb (fun t => t j) tests = true ->
            exists r, In r rows
                      /\ TimeSeries.Row.period r = date_trunc u (s_date (fst (fst j))).
Proof.
  unfold TimeSeries.run_query. intros H Hu Ht. rewrite Hu, Ht in H. simpl in H.
  destruct (mapM TimeSeries.select _) as [selected|e] eqn:Es; simpl in H; [|discriminate].
  injection H as <-. intros j Hj Hf.
  assert (Hin : In j (filter (fun r => forallb (fun t => t r) tests)
                             (TimeSeries.from db with_groups)))
    by (apply filter_In; auto).
  destruct (group_by_key Z.eq_dec
              (fun r : TimeSeries.joined => date_trunc u (s_date (fst (fst r)))) _ _ Hin)
    as [g Hg].
  destruct (mapM_In_left _ _ _ Es Hg) as (r & Hr & Hsel).
  exists r. split; [now apply In_order_by|].
  now rewrite (time_series_select_period _ Hsel).
Qed.

(** X5. The rows of the time-series report and of the trend report come
    in the order of their periods and no two rows have the same period:
    along each report the period goes strictly up. *)
Theorem periods_go_strictly_up db today :
  (forall (q : TimeSeries.query) data,
      TimeSeries.handler db today q = json data ->
      StronglySorted Z.lt (map TimeSeries.period data))
  /\ (forall (q : Trends.query) data,
         Trends.handler db today q = json data ->
         StronglySorted Z.lt (map Trends.period data)).
Proof.
  split.
  - intros q data H. unfold TimeSeries.handler in H.
    destruct (TimeSeries.buildFilter q today) as [wc ps].
    apply respond_json in H as (rows & Hq & ->).
    rewrite map_map. simpl. now apply time_series_periods in Hq.
  - intros q data H. unfold Trends.handler in H.
    apply respond_json in H as (rows & Hq & ->).
    apply trends_rows_selected in Hq as (u & _ & Hsel).
    rewrite map_map. change (StronglySorted Z.lt (map Trends.Row.period rows)).
    pose proof (mapM_map Trends.select Trends.Stats.period Trends.Row.period
                         trends_select_period _ Hsel) as E.
    unfold date in *. rewrite E. apply trends_stats_sorted.
Qed.

Lemma periods_go_strictly_up_witness :
  TimeSeries.handler Sample.db Sample.today (Sample.time_series None)
  = json [Sample.january_all; Sample.february]
  /\ StronglySorted Z.lt (map TimeSeries.period [Sample.january_all; Sample.february]).
Proof.
  split; [vm_compute; reflexivity|].
  apply (proj1 (periods_go_strictly_up Sample.db Sample.today) (Sample.time_series None)).
  vm_compute. reflexivity.
Defined.

(** X6. No bucket is dropped: for every sale the time-series request
    counts there is a row with the truncated date of that sale as period,
    and so there is in the trend report for every sale dated within the
    range. *)
Theorem buckets_of_sales_are_emitted db today :
  (forall (q : TimeSeries.query) data s,
      TimeSeries.handler db today q = json data ->
      matching_sale db today q s ->
      exists u o,
        trunc_unit (timeInterval (TimeSeries.interval q)) = Ok u
        /\ In o data
        /\ TimeSeries.period o = date_trunc u (s_date s))
  /\ (forall (q : Trends.query) data s,
         Trends.handler db today q = json data ->
         In s (sales db) ->
         start_of (Trends.startDate q) <= s_date s <= end_of (Trends.endDate q) today ->
         exists u o,
           trunc_unit (timeInterval (Trends.interval q)) = Ok u
           /\ In o data
           /\ Trends.period o = date_trunc u (s_date s)).
Proof.
  split.
  - intros q data s H (Hs & Hd & (usr & Husr & Hid) & Hu & Hg).
    unfold TimeSeries.handler in H.
    pose proof (@time_series_filter_passes q today) as Hpass.
    destruct (TimeSeries.buildFilter q today) as [wc ps]. simpl in Hpass.
    apply respond_json in H as (rows & Hq & ->).
    destruct (time_series_rows _ _ _ _ _ Hq) as (u & tests & Hunit & Ht & _).
    destruct (time_series_from_In db (JS.truthy (TimeSeries.groupId q)) s usr Hs Husr Hid)
      as [Hnone Hsome].
    assert (Hj : exists j, In j (TimeSeries.from db (JS.truthy (TimeSeries.groupId q)))
                           /\ fst (fst j) = s
                           /\ forallb (fun t => t j) tests = true).
    { destruct (JS.truthy (TimeSeries.groupId q)) eqn:Eg.
      - destruct (Hg eq_refl) as (ug & Hug & Hm & Hp).
        exists (s, usr, Some ug). split; [apply Hsome; auto; congruence|].
        split; [reflexivity|]. apply (Hpass tests _ Ht); simpl; auto.
        intros _. eauto.
      - exists (s, usr, None). split; [apply Hnone; reflexivity|].
        split; [reflexivity|]. apply (Hpass tests _ Ht); simpl; auto. discriminate. }
    destruct Hj as (j & Hj & <- & Hf).
    destruct (time_series_complete _ _ _ _ _ Hq Hunit Ht j Hj Hf) as (r & Hr & Hp).
    exists u, (TimeSeries.responseData (TimeSeries.metric_of q) r).
    split; [exact Hunit|]. split; [apply in_map, Hr | exact Hp].
  - intros q data s H Hs Hd. unfold Trends.handler in H.
    apply respond_json in H as (rows & Hq & ->).
    apply trends_rows_selected in Hq as (u & Hu & Hsel).
    assert (Hp : In (date_trunc u (s_date s))
                    (map Trends.Stats.period
                         (Trends.stats db u (start_of (Trends.startDate q))
                                       (end_of (Trends.endDate q) today)))).
    { apply trends_stats_periods, in_map_iff. exists s. split; [reflexivity|].
      apply filter_In. split; [exact Hs|]. unfold between.
      apply andb_true_iff. split; apply Z.leb_le; lia. }
    apply in_map_iff in Hp as (st & Hst & Hin).
    destruct (mapM_In_left _ _ _ Hsel Hin) as (r & Hr & Hsr).
    exists u, (Trends.responseData r). split; [exact Hu|]. split; [apply in_map, Hr|].
    simpl. rewrite (trends_select_period _ Hsr). exact Hst.
Qed.

Lemma buckets_of_sales_are_emitted_witness :
  Trends.handler Sample.db Sample.today Sample.trend
  = json [Sample.january_growth; Sample.february_growth]
  /\ (forall s,
        In s (sales Sample.db) ->
        start_of (Trends.startDate Sample.trend) <= s_date s
        <= end_of (Trends.endDate Sample.trend) Sample.today ->
        exists u o,
          trunc_unit (timeInterval (Trends.interval Sample.trend)) = Ok u
          /\ In o [Sample.january_growth; Sample.february_growth]
          /\ Trends.period o = date_trunc u (s_date s)).
Proof.
  split; [vm_compute; reflexivity|].
  intros s. apply (proj2 (buckets_of_sales_are_emitted Sample.db Sample.today) Sample.trend).
  vm_compute. reflexivity.
Defined.

End BucketRows.

(** ** Periods, averages and growth *)

Section PeriodsAndGrowth.

Import Date Store SQL Http Statement.

(** X7. The period of a row is the first day of its bucket: truncating
    it again to the unit of the request gives it back, in the time-series
    report and in the trend report. *)
Theorem periods_are_bucket_starts db today :
  (forall (q : TimeSeries.query) data o,
      TimeSeries.handler db today q = json data ->
      In o data ->
      exists u,
        trunc_unit (timeInterval (TimeSeries.interval q)) = Ok u
        /\ date_trunc u (TimeSeries.period o) = TimeSeries.period o)
  /\ (forall (q : Trends.query) data o,
         Trends.handler db today q = json data ->
         In o data ->
         exists u,
           trunc_unit (timeInterval (Trends.interval q)) = Ok u
           /\ date_trunc u (Trends.period o) = Trends.period o).
Proof.
  split.
  - intros q data o H Ho.
    destruct (time_series_emitted db today q o H Ho)
      as (r & u & s & -> & _ & _ & Hu & _ & Hp).
    exists u. split; [exact Hu|]. simpl. rewrite Hp. apply date_trunc_idempotent.
  - intros q data o H Ho. unfold Trends.handler in H.
    apply respond_json in H as (rows & Hq & ->).
    apply in_map_iff in Ho as (r & <- & Hr).
    apply trends_rows in Hq as (u & Hu & _ & Hrows).
    destruct (Hrows r Hr) as (s & _ & _ & Hp).
    exists u. split; [exact Hu|]. simpl. rewrite Hp. apply date_trunc_idempotent.
Qed.

Lemma periods_are_bucket_starts_witness :
  TimeSeries.handler Sample.db Sample.today Sample.late_january = json [Sample.january]
  /\ In Sample.january [Sample.january]
  /\ exists u,
       trunc_unit (timeInterval (TimeSeries.interval Sample.late_january)) = Ok u
       /\ date_trunc u (TimeSeries.period Sample.january) = TimeSeries.period Sample.january.
Proof.
  split; [vm_compute; reflexivity|]. split; [simpl; auto|].
  apply (proj1 (periods_are_bucket_starts Sample.db Sample.today)
               Sample.late_january [Sample.january] Sample.january).
  - vm_compute. reflexivity.
  - simpl. auto.
Defined.

(** X8. When the start of the range is itself the first day of a bucket
    of the unit asked for (any date by day; the default 2021-01-01 by
    month, quarter and year), every period of the time-series and of the
    trend report lies within the range, both ends included. *)
Theorem periods_within_range_from_bucket_start db today :
  (forall (q : TimeSeries.query) data o u,
      TimeSeries.handler db today q = json data ->
      In o data ->
      trunc_unit (timeInterval (TimeSeries.interval q)) = Ok u ->
      date_trunc u (start_of (TimeSeries.startDate q)) = start_of (TimeSeries.startDate q) ->
      start_of (TimeSeries.startDate q) <= TimeSeries.period o
      <= end_of (TimeSeries.endDate q) today)
  /\ (forall (q : Trends.query) data o u,
         Trends.handler db today q = json data ->
         In o data ->
         trunc_unit (timeInterval (Trends.interval q)) = Ok u ->
         date_trunc u (start_of (Trends.startDate q)) = start_of (Trends.startDate q) ->
         start_of (Trends.startDate q) <= Trends.period o
         <= end_of (Trends.endDate q) today).
Proof.
  split.
  - intros q data o u H Ho Hu Hstart.
    destruct (time_series_emitted db today q o H Ho)
      as (r & u' & s & -> & _ & _ & Hu' & (_ & Hd & _) & Hp).
    rewrite Hu in Hu'. injection Hu' as <-. simpl. rewrite Hp, <- Hstart.
    pose proof (date_trunc_le u (s_date s)).
    pose proof (@date_trunc_mono u (date_trunc u (start_of (TimeSeries.startDate q)))
                                 (s_date s)) as Hm.
    rewrite date_trunc_idempotent in Hm. rewrite Hstart in *. lia.
  - intros q data o u H Ho Hu Hstart. unfold Trends.handler in H.
    apply respond_json in H as (rows & Hq & ->).
    apply in_map_iff in Ho as (r & <- & Hr).
    apply trends_rows in Hq as (u' & Hu' & _ & Hrows).
    rewrite Hu in Hu'. injection Hu' as <-.
    destruct (Hrows r Hr) as (s & _ & Hd & Hp). simpl. rewrite Hp.
    pose proof (date_trunc_le u (s_date s)).
    pose proof (@date_trunc_mono u (start_of (Trends.startDate q)) (s_date s)) as Hm.
    rewrite Hstart in Hm. lia.
Qed.

Lemma periods_within_range_from_bucket_start_witness :
  Trends.handler Sample.db Sample.today Sample.trend
  = json [Sample.january_growth; Sample.february_growth]
  /\ In Sample.february_growth [Sample.january_growth; Sample.february_growth]
  /\ trunc_unit (timeInterval (Trends.interval Sample.trend)) = Ok Month
  /\ date_trunc Month (start_of (Trends.startDate Sample.trend))
     = start_of (Trends.startDate Sample.trend)
  /\ start_of (Trends.startDate Sample.trend) <= Trends.period Sample.february_growth
     <= end_of (Trends.endDate Sample.trend) Sample.today.
Proof.
  split; [vm_compute; reflexivity|]. split; [simpl; auto|].
  split; [reflexivity|]. split; [vm_compute; reflexivity|].
  apply (proj2 (periods_within_range_from_bucket_start Sample.db Sample.today)
               Sample.trend [Sample.january_growth; Sample.february_growth]
               Sample.february_growth Month).
  - vm_compute. reflexivity.
  - simpl. auto.
  - reflexivity.
  - vm_compute. reflexivity.
Defined.

(** X9. In a row of the time-series report under [metric=all],
    [averageRevenue] is [totalRevenue] divided by [saleCount] and cast to
    [numeric(10,2)], and [activeUsers] is at least 1 and at most
    [saleCount]. *)
Theorem average_and_active_users db today (q : TimeSeries.query) data o :
  TimeSeries.handler db today q = json data ->
  In o data ->
  TimeSeries.metric_of q = "all" ->
  exists n k t a,
    TimeSeries.saleCount o = Some n
    /\ TimeSeries.activeUsers o = Some k
    /\ TimeSeries.totalRevenue o = Some (JS.Num t)
    /\ TimeSeries.averageRevenue o = Some (JS.Num a)
    /\ cast_numeric_10_2 (t / inject_Z n) = Ok a
    /\ 1 <= k <= n.
Proof.
  intros H Ho Hall. unfold TimeSeries.handler in H.
  destruct (TimeSeries.buildFilter q today) as [wc ps].
  apply respond_json in H as (rows & Hq & ->).
  apply in_map_iff in Ho as (r & <- & Hr).
  destruct (time_series_groups _ _ _ _ _ Hq r Hr) as (g & Hne & Hsel).
  destruct (@time_series_select_aggregates _ _ _ Hne Hsel) as (t & a & Ht & Ha & Hc & Hk).
  unfold TimeSeries.responseData. rewrite Hall, Ht, Ha. simpl.
  exists (TimeSeries.Row.sale_count r), (TimeSeries.Row.active_users r), t, a. auto 7.
Qed.

Lemma average_and_active_users_witness :
  TimeSeries.handler Sample.db Sample.today (Sample.time_series None)
  = json [Sample.january_all; Sample.february]
  /\ In Sample.january_all [Sample.january_all; Sample.february]
  /\ TimeSeries.metric_of (Sample.time_series None) = "all"
  /\ exists n k t a,
       TimeSeries.saleCount Sample.january_all = Some n
       /\ TimeSeries.activeUsers Sample.january_all = Some k
       /\ TimeSeries.totalRevenue Sample.january_all = Some (JS.Num t)
       /\ TimeSeries.averageRevenue Sample.january_all = Some (JS.Num a)
       /\ cast_numeric_10_2 (t / inject_Z n) = Ok a
       /\ 1 <= k <= n.
Proof.
  split; [vm_compute; reflexivity|]. split; [simpl; auto|]. split; [reflexivity|].
  apply (@average_and_active_users Sample.db Sample.today (Sample.time_series None)
           [Sample.january_all; Sample.february] Sample.january_all).
  - vm_compute. reflexivity.
  - simpl. auto.
  - reflexivity.
Defined.





(** X12. The trend report counts every sale of the range once: the
    [saleCount] of its rows add up to the number of sales dated within
    [startDate, endDate]. *)
Theorem trend_counts_add_up db today (q : Trends.query) data :
  Trends.handler db today q = json data ->
  sum_counts (map Trends.saleCount data)
  = Z.of_nat (List.length
                (filter (fun s => between (s_date s) (start_of (Trends.startDate q))
                                          (end_of (Trends.endDate q) today))
                        (sales db))).
Proof.
  intros H. unfold Trends.handler in H.
  apply respond_json in H as (rows & Hq & ->).
  apply trends_rows_selected in Hq as (u & _ & Hsel).
  rewrite map_map.
  match goal with
  | |- _ = ?n => change (sum_counts (map Trends.Row.sale_count rows) = n)
  end.
  assert (Hk : forall s r, Trends.select s = Ok r ->
                           Trends.Row.sale_count r = Trends.Stats.sale_count s).
  { intros s r. unfold Trends.select. destruct (Trends.growth _ _); simpl; intros E;
      [|discriminate]. now injection E as <-. }
  rewrite (mapM_map Trends.select Trends.Stats.sale_count Trends.Row.sale_count Hk _ Hsel).
  unfold Trends.stats. rewrite lag_counts.
  rewrite (sum_counts_Permutation
             (Permutation_map snd (order_by_Permutation _ _))).
  rewrite map_map.
  rewrite <- (group_by_partition Z.eq_dec (fun s => date_trunc u (s_date s))).
  f_equal. apply map_ext. intros [k g]. unfold Trends.aggregate. simpl.
  apply COUNT_of_map.
Qed.

Lemma trend_counts_add_up_witness :
  Trends.handler Sample.db Sample.today Sample.trend
  = json [Sample.january_growth; Sample.february_growth]
  /\ sum_counts (map Trends.saleCount [Sample.january_growth; Sample.february_growth])
     = Z.of_nat (List.length
                   (filter (fun s => between (s_date s)
                                             (start_of (Trends.startDate Sample.trend))
                                             (end_of (Trends.endDate Sample.trend)
                                                     Sample.today))
                           (sales Sample.db))).
Proof.
  split; [vm_compute; reflexivity|].
  apply (@trend_counts_add_up Sample.db Sample.today Sample.trend).
  vm_compute. reflexivity.
Defined.

End PeriodsAndGrowth.

(** ** More on the user report *)

Section UsersMore.

Import Date Store SQL Http Statement.

Lemma left_join_In A B (on : A -> B -> bool) l r a b :
  In a l -> In b r -> on a b = true -> In (a, Some b) (left_join on l r).
Proof.
  intros Ha Hb Hon. unfold left_join. apply in_flat_map. exists a. split; [exact Ha|].
  assert (Hf : In b (filter (on a) r)) by (apply filter_In; auto).
  destruct (filter (on a) r) as [|b0 bs]; [destruct Hf|].
  apply in_map_iff. exists b. auto.
Qed.

Lemma NoDup_firstn A n (l : list A) : NoDup l -> NoDup (firstn n l).
Proof.
  intros H. revert n. induction H as [|x l Hx Hl IH]; intros [|n]; simpl;
    try constructor; auto.
  intros Hin. apply Hx. eapply firstn_In; eauto.
Qed.

Lemma skipn_In A n (l : list A) x : In x (skipn n l) -> In x l.
Proof.
  revert l. induction n as [|n IH]; intros [|y l]; simpl; auto.
Qed.

Lemma StronglySorted_split A (R : A -> A -> Prop) n l a b :
  StronglySorted R l -> In a (firstn n l) -> In b (skipn n l) -> R a b.
Proof.
  intros H. revert n. induction H as [|x l Hs IH Hx]; intros [|n]; simpl; try tauto.
  intros [<- | Ha] Hb.
  - rewrite Forall_forall in Hx. apply Hx. eapply skipn_In; eauto.
  - eapply IH; eauto.
Qed.

(** The membership and the group behind a name of a joined row. *)
Lemma users_from_group db lo hi j g :
  In j (Users.from db lo hi) -> Users.j_group j = Some g ->
  In g (Store.groups db)
  /\ exists ug, In ug (user_groups db)
                /\ ug_user_id ug = u_id (Users.j_user j)
                /\ ug_group_id ug = g_id g.
Proof.
  destruct j as [[[u os] oug] og]. unfold Users.from, Users.j_user, Users.j_group. simpl.
  intros H ->. apply In_left_join in H as [H [Hg Hon]]. simpl in Hon.
  destruct oug as [ug|]; [|discriminate]. apply Z.eqb_eq in Hon.
  apply In_left_join in H as [_ [Hug Hid]]. simpl in Hid. apply Z.eqb_eq in Hid.
  split; [exact Hg|]. exists ug. auto.
Qed.

Lemma users_from_membership db lo hi u ug g :
  In u (users db) -> In ug (user_groups db) -> In g (Store.groups db) ->
  ug_user_id ug = u_id u -> ug_group_id ug = g_id g ->
  exists j, In j (Users.from db lo hi) /\ Users.j_user j = u /\ Users.j_group j = Some g.
Proof.
  intros Hu Hug Hg Hid Hgid. unfold Users.from.
  destruct (left_join_left (fun u s => (u_id u =? s_user_id s) && between (s_date s) lo hi)
                           (users db) (sales db) u Hu) as [os H1].
  pose proof (left_join_In (fun (r : user * option sale) ug => u_id (fst r) =? ug_user_id ug)
                           _ (user_groups db) (u, os) ug H1 Hug) as H2.
  specialize (H2 ltac:(simpl; apply Z.eqb_eq; congruence)).
  pose proof (left_join_In (fun (r : user * option sale * option user_group) g =>
                              match snd r with
                              | Some ug => ug_group_id ug =? g_id g
                              | None => false
                              end) _ (Store.groups db) (u, os, Some ug) g H2 Hg) as H3.
  specialize (H3 ltac:(simpl; apply Z.eqb_eq; congruence)).
  exists (u, os, Some ug, Some g). auto.
Qed.

Lemma users_ranked_keys db lo hi rows :
  Users.ranked db lo hi = Ok rows ->
  NoDup (map (fun r => (Users.Row.id r, Users.Row.name r, Users.Row.role r)) rows).
Proof.
  unfold Users.ranked.
  destruct (mapM Users.select _) as [selected|e] eqn:Es; simpl; intros H; [|discriminate].
  injection H as <-.
  eapply Permutation_NoDup;
    [apply Permutation_map; symmetry; apply order_by_Permutation|].
  assert (Hk : forall (g : Users.key * list Users.joined) r,
             Users.select g = Ok r ->
             (Users.Row.id r, Users.Row.name r, Users.Row.role r) = fst g).
  { intros [k g] r Hsel. now apply users_select in Hsel. }
  refine (eq_ind_r (fun l => NoDup l) _
                   (mapM_map Users.select (fun g => fst g)
                             (fun r => (Users.Row.id r, Users.Row.name r, Users.Row.role r))
                             Hk _ Es)).
  apply group_by_NoDup.
Qed.

(** X13. No user comes twice in the user report, and every row is a
    user of the store: the rows have distinct (id, name, role), each the
    one of a row of [users]. *)
Theorem user_rows_are_distinct_users db today (q : Users.query) data :
  Users.handler db today q = json data ->
  NoDup (map (fun o => (Users.userId o, Users.name o, Users.role o)) data)
  /\ forall o, In o data ->
       exists u, In u (users db)
                 /\ user_key u = (Users.userId o, Users.name o, Users.role o).
Proof.
  intros H. apply users_emitted in H as (n & rows & _ & _ & Hr & ->).
  pose proof (users_ranked_keys _ _ _ Hr) as Hnd.
  pose proof (users_ranked _ _ _ Hr) as (_ & _ & Hrows & _).
  split.
  - rewrite map_map.
    change (NoDup (map (fun r => (Users.Row.id r, Users.Row.name r, Users.Row.role r))
                       (firstn (Z.to_nat n) rows))).
    rewrite <- firstn_map. now apply NoDup_firstn.
  - intros o Ho. apply in_map_iff in Ho as (r & <- & Hin).
    apply firstn_In in Hin. destruct (Hrows r Hin) as (g & Hg & Hsel).
    assert (Hne : exists j, In j g).
    { destruct g as [|j g']; [|exists j; simpl; auto].
      exfalso. apply users_select in Hsel as (_ & Hc & _).
      enough (In (Users.Row.id r, Users.Row.name r, Users.Row.role r)
                 (map Users.key_of (Users.from db (start_of (Users.startDate q))
                                                (end_of (Users.endDate q) today)))) as Hk.
      { apply in_map_iff in Hk as (j & Hk & Hj). apply (Hg j). auto. }
      clear Hc. unfold Users.ranked in Hr.
      destruct (mapM Users.select _) as [selected|e] eqn:Es; simpl in Hr; [|discriminate].
      injection Hr as <-. apply In_order_by in Hin.
      destruct (mapM_In _ _ _ Es Hin) as ([k g0] & Hin0 & Hsel0).
      apply users_select in Hsel0 as (-> & _).
      unfold group_by in Hin0. apply in_map_iff in Hin0 as (k' & E & Hk').
      injection E as -> _. now apply nodup_In in Hk'. }
    destruct Hne as [j Hj]. apply Hg in Hj as [Hj Hk].
    exists (Users.j_user j). split; [now apply users_from_row in Hj|]. exact Hk.
Qed.

Lemma user_rows_are_distinct_users_witness :
  Users.handler Sample.db Sample.today (Sample.ranking None None)
  = json [Sample.gloria; Sample.quincy; Sample.tess]
  /\ NoDup (map (fun o => (Users.userId o, Users.name o, Users.role o))
                [Sample.gloria; Sample.quincy; Sample.tess])
  /\ forall o, In o [Sample.gloria; Sample.quincy; Sample.tess] ->
       exists u, In u (users Sample.db)
                 /\ user_key u = (Users.userId o, Users.name o, Users.role o).
Proof.
  split; [vm_compute; reflexivity|].
  apply (@user_rows_are_distinct_users Sample.db Sample.today (Sample.ranking None None)).
  vm_compute. reflexivity.
Defined.

(** X14. The names in [groups] of a row of the user report are, as a
    set, the names of the groups the user is a member of: a name is there
    exactly when [user_groups] links the user to a group of that name. The
    date range plays no part in which names there are. *)
Theorem group_names_are_the_memberships db today (q : Users.query) data o name :
  Users.handler db today q = json data ->
  In o data ->
  (In name (Users.groups o)
   <-> exists ug g,
         In ug (user_groups db) /\ In g (Store.groups db)
         /\ ug_user_id ug = Users.userId o
         /\ ug_group_id ug = g_id g
         /\ g_name g = name).
Proof.
  intros H Ho. apply users_emitted in H as (n & rows & _ & _ & Hr & ->).
  pose proof (users_ranked _ _ _ Hr) as (_ & _ & Hrows & _).
  apply in_map_iff in Ho as (r & <- & Hin). apply firstn_In in Hin.
  destruct (Hrows r Hin) as (g & Hg & Hsel).
  pose proof (users_select _ _ Hsel) as (_ & _ & _ & _ & Hnames).
  unfold Users.responseData. simpl. rewrite Hnames, In_non_null, in_map_iff. split.
  - intros (j & Hj & Hjg). apply Hg in Hjg as [Hjf Hk].
    destruct (Users.j_group j) as [grp|] eqn:Eg; [|discriminate].
    injection Hj as <-.
    destruct (users_from_group _ _ _ _ Hjf Eg) as (Hgrp & ug & Hug & Hid & Hgid).
    exists ug, grp. unfold Users.key_of in Hk. injection Hk as Hk _ _.
    repeat split; auto. congruence.
  - intros (ug & grp & Hug & Hgrp & Hid & Hgid & <-).
    assert (Hne : exists j0, In j0 g).
    { destruct g as [|j0 g']; [|exists j0; simpl; auto].
      exfalso. unfold Users.ranked in Hr.
      destruct (mapM Users.select _) as [selected|e] eqn:Es; simpl in Hr; [|discriminate].
      injection Hr as <-. apply In_order_by in Hin.
      destruct (mapM_In _ _ _ Es Hin) as ([k g0] & Hin0 & Hsel0).
      pose proof (users_select _ _ Hsel0) as (Ek & _). subst k.
      apply In_group_by in Hin0 as [Hne0 Hg0].
      destruct g0 as [|j g0]; [congruence|].
      apply (Hg j). apply Hg0. simpl. auto. }
    destruct Hne as [j0 Hj0]. apply Hg in Hj0 as [Hj0 Hk0].
    pose proof (users_from_row _ _ _ _ Hj0) as (Hu & _).
    assert (Hid' : ug_user_id ug = u_id (Users.j_user j0)).
    { unfold Users.key_of in Hk0. injection Hk0 as Hk0 _ _. congruence. }
    destruct (users_from_membership db (start_of (Users.startDate q))
                (end_of (Users.endDate q) today) (Users.j_user j0) ug grp
                Hu Hug Hgrp Hid' Hgid) as (j & Hj & Hju & Hjg).
    exists j. split; [now rewrite Hjg|]. apply Hg. split; [exact Hj|].
    unfold Users.key_of in *. now rewrite Hju.
Qed.

Lemma group_names_are_the_memberships_witness :
  Users.handler Sample.db Sample.today (Sample.ranking None None)
  = json [Sample.gloria; Sample.quincy; Sample.tess]
  /\ In Sample.gloria [Sample.gloria; Sample.quincy; Sample.tess]
  /\ (In "Northeast Sales Team" (Users.groups Sample.gloria)
      <-> exists ug g,
            In ug (user_groups Sample.db) /\ In g (Store.groups Sample.db)
            /\ ug_user_id ug = Users.userId Sample.gloria
            /\ ug_group_id ug = g_id g
            /\ g_name g = "Northeast Sales Team").
Proof.
  split; [vm_compute; reflexivity|]. split; [simpl; auto|].
  apply (@group_names_are_the_memberships Sample.db Sample.today
           (Sample.ranking None None) [Sample.gloria; Sample.quincy; Sample.tess]).
  - vm_compute. reflexivity.
  - simpl. auto.
Defined.

(** X15. In every row of the user report [activeDays] is at most
    [saleCount], and it is zero exactly when [saleCount] is. *)
Theorem active_days_within_sales db today (q : Users.query) data o :
  Users.handler db today q = json data ->
  In o data ->
  0 <= Users.activeDays o <= Users.saleCount o
  /\ (Users.activeDays o = 0 <-> Users.saleCount o = 0).
Proof.
  intros H Ho. apply users_emitted in H as (n & rows & _ & _ & Hr & ->).
  pose proof (users_ranked _ _ _ Hr) as (_ & _ & Hrows & _).
  apply in_map_iff in Ho as (r & <- & Hin). apply firstn_In in Hin.
  destruct (Hrows r Hin) as (g & _ & Hsel).
  unfold Users.select in Hsel. simpl in Hsel.
  destruct (cast_null_10_2 _) as [avg|e]; simpl in Hsel; [|discriminate].
  injection Hsel as <-. unfold Users.responseData. simpl.
  unfold COUNT, COUNT_DISTINCT. rewrite !non_null_option_map.
  remember (non_null (map Users.j_sale g)) as l eqn:El. clear El.
  change (fun s : sale => date_trunc Day (s_date s)) with (fun s : sale => s_date s).
  pose proof (NoDup_incl_length (NoDup_nodup Z.eq_dec (map s_date l))
                                (l' := map s_date l)) as Hle.
  rewrite !length_map in *.
  assert (Hinc : incl (nodup Z.eq_dec (map s_date l)) (map s_date l))
    by (intros y Hy; now apply nodup_In in Hy).
  specialize (Hle Hinc).
  change (fun s : sale => s_date s) with s_date.
  destruct l as [|s l']; [simpl; split; [lia | split; reflexivity]|].
  assert (Hs : In (s_date s) (nodup Z.eq_dec (map s_date (s :: l'))))
    by (apply nodup_In; simpl; auto).
  destruct (nodup Z.eq_dec _) as [|d ds]; [contradiction|].
  cbn [List.length] in *. rewrite !Nat2Z.inj_succ. clear Hs Hinc.
  unfold date in *. split; [lia | split; lia].
Qed.

Lemma active_days_within_sales_witness :
  Users.handler Sample.db Sample.today (Sample.ranking None None)
  = json [Sample.gloria; Sample.quincy; Sample.tess]
  /\ In Sample.gloria [Sample.gloria; Sample.quincy; Sample.tess]
  /\ 0 <= Users.activeDays Sample.gloria <= Users.saleCount Sample.gloria
  /\ (Users.activeDays Sample.gloria = 0 <-> Users.saleCount Sample.gloria = 0).
Proof.
  split; [vm_compute; reflexivity|]. split; [simpl; auto|].
  apply (@active_days_within_sales Sample.db Sample.today (Sample.ranking None None)
           [Sample.gloria; Sample.quincy; Sample.tess] Sample.gloria).
  - vm_compute. reflexivity.
  - simpl. auto.
Defined.



(** X17. The rows the limit keeps are the top of the ranking: every row
    it cuts ranks after every row it keeps ([DESC NULLS LAST] on the total
    revenue). *)
Theorem limit_keeps_the_top db today (q : Users.query) data :
  Users.handler db today q = json data ->
  exists n rows,
    Users.parseInt_limit (Users.limit q) = Some n
    /\ Users.ranked db (start_of (Users.startDate q)) (end_of (Users.endDate q) today)
       = Ok rows
    /\ data = map Users.responseData (firstn (Z.to_nat n) rows)
    /\ forall kept cut,
         In kept (firstn (Z.to_nat n) rows) ->
         In cut (skipn (Z.to_nat n) rows) ->
         ranks_before (Users.Row.total_revenue kept) (Users.Row.total_revenue cut).
Proof.
  intros H. apply users_emitted in H as (n & rows & Hn & _ & Hr & ->).
  pose proof (users_ranked _ _ _ Hr) as (_ & Hs & _).
  exists n, rows. repeat split; auto.
  intros kept cut Hk Hc.
  exact (@StronglySorted_split _
           (fun a b => ranks_before (Users.Row.total_revenue a) (Users.Row.total_revenue b))
           (Z.to_nat n) rows kept cut Hs Hk Hc).
Qed.

Lemma limit_keeps_the_top_witness :
  Users.handler Sample.db Sample.today (Sample.ranking None (Some "1"))
  = json [Sample.gloria]
  /\ exists n rows,
       Users.parseInt_limit (Users.limit (Sample.ranking None (Some "1"))) = Some n
       /\ Users.ranked Sample.db
                       (start_of (Users.startDate (Sample.ranking None (Some "1"))))
                       (end_of (Users.endDate (Sample.ranking None (Some "1")))
                               Sample.today)
          = Ok rows
       /\ [Sample.gloria] = map Users.responseData (firstn (Z.to_nat n) rows)
       /\ forall kept cut,
            In kept (firstn (Z.to_nat n) rows) ->
            In cut (skipn (Z.to_nat n) rows) ->
            ranks_before (Users.Row.total_revenue kept) (Users.Row.total_revenue cut).
Proof.
  split; [vm_compute; reflexivity|].
  apply (@limit_keeps_the_top Sample.db Sample.today (Sample.ranking None (Some "1"))).
  vm_compute. reflexivity.
Defined.

End UsersMore.

(** ** More on the group report *)

Section GroupsMore.

Import Date Store SQL Http Statement.

Lemma groups_select_key (g : Groups.key * list Groups.joined) r :
  Groups.select g = Ok r -> (Groups.Row.id r, Groups.Row.name r) = fst g.
Proof.
  unfold Groups.select. destruct g as [[i n] g]. simpl.
  destruct (cast_null_10_2 _) as [avg|e]; simpl; [|discriminate].
  destruct (div _ _) as [per|e]; simpl; intros H; [|discriminate].
  now injection H as <-.
Qed.


(** The members behind a joined row, and a joined row for a member. *)
Lemma groups_from_member db lo hi j ug :
  In j (Groups.from db lo hi) -> Groups.j_member j = Some ug ->
  In ug (user_groups db) /\ ug_group_id ug = g_id (Groups.j_group j).
Proof.
  destruct j as [[g oug] os]. unfold Groups.from, Groups.j_group, Groups.j_member. simpl.
  intros H ->. apply In_left_join in H as [H _]. apply In_left_join in H as [_ [Hug Hon]].
  apply Z.eqb_eq in Hon. auto.
Qed.

Lemma groups_from_membership db lo hi g ug :
  In g (Store.groups db) -> In ug (user_groups db) -> ug_group_id ug = g_id g ->
  exists j, In j (Groups.from db lo hi)
            /\ Groups.j_group j = g /\ Groups.j_member j = Some ug.
Proof.
  intros Hg Hug Hid. unfold Groups.from.
  pose proof (left_join_In (fun g ug => g_id g =? ug_group_id ug)
                           (Store.groups db) (user_groups db) g ug Hg Hug) as H1.
  specialize (H1 ltac:(apply Z.eqb_eq; congruence)).
  destruct (left_join_left (fun (r : group * option user_group) s =>
                              match snd r with
                              | Some ug =>
                                  (ug_user_id ug =? s_user_id s)
                                  && between (s_date s) lo hi
                              | None => false
                              end) _ (sales db) _ H1) as [os H2].
  exists (g, Some ug, os). auto.
Qed.

Lemma groups_rows_groups db lo hi rows :
  Groups.run_query db lo hi = Ok rows ->
  NoDup (map (fun r => (Groups.Row.id r, Groups.Row.name r)) rows)
  /\ forall r, In r rows ->
       exists g,
         g <> []
         /\ (forall j, In j g <->
                       In j (Groups.from db lo hi)
                       /\ Groups.key_of j = (Groups.Row.id r, Groups.Row.name r))
         /\ Groups.select ((Groups.Row.id r, Groups.Row.name r), g) = Ok r.
Proof.
  unfold Groups.run_query.
  destruct (mapM Groups.select _) as [selected|e] eqn:Es; simpl; intros H; [|discriminate].
  injection H as <-. split.
  - eapply Permutation_NoDup;
      [apply Permutation_map; symmetry; apply order_by_Permutation|].
    refine (eq_ind_r (fun l => NoDup l) _
                     (mapM_map Groups.select (fun g => fst g)
                               (fun r => (Groups.Row.id r, Groups.Row.name r))
                               groups_select_key _ Es)).
    apply group_by_NoDup.
  - intros r Hr. apply In_order_by in Hr.
    destruct (mapM_In _ _ _ Es Hr) as ([k g] & Hg & Hsel).
    pose proof (groups_select_key _ Hsel) as Hk. simpl in Hk. rewrite Hk.
    apply In_group_by in Hg as [Hne Hg]. eauto.
Qed.



(** X19. [memberCount] of a row of the group report is the number of
    distinct users that [user_groups] links to the group; the date range
    plays no part in it. *)
Theorem member_count_is_the_membership db today (q : Groups.query) data o :
  Groups.handler db today q = json data ->
  In o data ->
  Groups.memberCount o
  = Z.of_nat (List.length
                (nodup Z.eq_dec
                       (map ug_user_id
                            (filter (fun ug => ug_group_id ug =? Groups.groupId o)
                                    (user_groups db))))).
Proof.
  intros H Ho. unfold Groups.handler in H.
  apply respond_json in H as (rows & Hq & ->).
  apply in_map_iff in Ho as (r & <- & Hr).
  pose proof (groups_rows_groups _ _ _ Hq) as [_ Hrows].
  destruct (Hrows r Hr) as (g & Hne & Hg & Hsel).
  apply groups_select in Hsel as (Hm & _).
  unfold Groups.responseData. simpl. rewrite Hm. unfold COUNT_DISTINCT. f_equal.
  apply nodup_length_same. intros x.
  rewrite In_non_null, !in_map_iff. split.
  - intros (j & Hj & Hjg). apply Hg in Hjg as [Hjf Hk].
    destruct (Groups.j_member j) as [ug|] eqn:Em; [|discriminate].
    injection Hj as <-.
    destruct (groups_from_member _ _ _ _ Hjf Em) as [Hug Hid].
    exists ug. split; [reflexivity|]. apply filter_In. split; [exact Hug|].
    apply Z.eqb_eq. unfold Groups.key_of in Hk. injection Hk as Hk _. congruence.
  - intros (ug & <- & Hug). apply filter_In in Hug as [Hug Hid]. apply Z.eqb_eq in Hid.
    destruct g as [|j0 g']; [congruence|].
    destruct (Hg j0) as [Hj0 _]. destruct Hj0 as [Hj0 Hk0]; [simpl; auto|].
    pose proof (groups_from_row _ _ _ _ Hj0) as [Hgrp _].
    assert (Hid' : ug_group_id ug = g_id (Groups.j_group j0)).
    { unfold Groups.key_of in Hk0. injection Hk0 as Hk0 _. congruence. }
    destruct (groups_from_membership db (start_of (Groups.startDate q))
                (end_of (Groups.endDate q) today) (Groups.j_group j0) ug Hgrp Hug Hid')
      as (j & Hj & Hjg & Hjm).
    exists j. split; [now rewrite Hjm|]. apply Hg. split; [exact Hj|].
    unfold Groups.key_of in *. now rewrite Hjg.
Qed.

Lemma member_count_is_the_membership_witness :
  Groups.handler Sample.db Sample.today Sample.teams
  = json [Sample.northeast; Sample.west_coast; Sample.midwest]
  /\ In Sample.northeast [Sample.northeast; Sample.west_coast; Sample.midwest]
  /\ Groups.memberCount Sample.northeast
     = Z.of_nat (List.length
                   (nodup Z.eq_dec
                          (map ug_user_id
                               (filter (fun ug =>
                                          ug_group_id ug =? Groups.groupId Sample.northeast)
                                       (user_groups Sample.db))))).
Proof.
  split; [vm_compute; reflexivity|]. split; [simpl; auto|].
  apply (@member_count_is_the_membership Sample.db Sample.today Sample.teams
           [Sample.northeast; Sample.west_coast; Sample.midwest] Sample.northeast).
  - vm_compute. reflexivity.
  - simpl. auto.
Defined.

End GroupsMore.

(** ** The time series and the trend report, side by side *)

Section SideBySide.

Import Date Store SQL Http Statement.

Lemma filter_of_map A B (h : A -> B) (p : B -> bool) l :
  filter p (map h l) = map h (filter (fun a => p (h a)) l).
Proof.
  induction l as [|a l IH]; simpl; [reflexivity|].
  destruct (p (h a)); simpl; now rewrite IH.
Qed.

Lemma group_by_of_map A B K (K_dec : forall x y : K, {x = y} + {x <> y})
      (h : A -> B) (key : B -> K) l :
  group_by K_dec key (map h l)
  = map (fun g => (fst g, map h (snd g))) (group_by K_dec (fun a => key (h a)) l).
Proof.
  unfold group_by. rewrite !map_map. cbn [fst snd].
  apply map_ext. intros k. f_equal. apply filter_of_map.
Qed.

Lemma insert_of_map A B (h : A -> B) (before : B -> B -> bool) x l :
  map h (insert (fun a b => before (h a) (h b)) x l) = insert before (h x) (map h l).
Proof.
  induction l as [|y l IH]; simpl; [reflexivity|].
  destruct (before (h x) (h y)); simpl; [reflexivity|]. now rewrite IH.
Qed.

Lemma order_by_of_map A B (h : A -> B) (before : B -> B -> bool) l :
  map h (order_by (fun a b => before (h a) (h b)) l) = order_by before (map h l).
Proof.
  induction l as [|x l IH]; simpl; [reflexivity|].
  now rewrite insert_of_map, IH.
Qed.

(** With one user for every sale, the join with [users] keeps the sales
    as they are. *)
Lemma time_series_from_sales db :
  sales_have_one_user db ->
  map (fun j : TimeSeries.joined => fst (fst j)) (TimeSeries.from db false) = sales db.
Proof.
  unfold sales_have_one_user, TimeSeries.from, join. rewrite map_map. cbn [fst].
  induction (sales db) as [|s l IH]; simpl; [reflexivity|].
  intros H. apply andb_true_iff in H as [Hs Hl]. apply Nat.eqb_eq in Hs.
  rewrite map_app, (IH Hl).
  destruct (filter _ (users db)) as [|u [|u' us]]; simpl in Hs; try discriminate.
  reflexivity.
Qed.

(** What the select list of the time series and the aggregates of
    [stats] have in common. *)
Lemma time_series_select_common g r :
  TimeSeries.select g = Ok r ->
  (TimeSeries.Row.period r, TimeSeries.Row.total_revenue r, TimeSeries.Row.sale_count r)
  = Trends.aggregate (fst g, map (fun j : TimeSeries.joined => fst (fst j)) (snd g)).
Proof.
  unfold TimeSeries.select.
  destruct (cast_null_10_2 _) as [avg|e]; simpl; intros H; [|discriminate].
  injection H as <-. unfold Trends.aggregate. simpl. now rewrite !map_map.
Qed.

Lemma trends_select_lag l :
  forall prev rows,
    mapM Trends.select (Trends.lag prev l) = Ok rows ->
    map (fun r => (Trends.Row.period r, Trends.Row.total_revenue r, Trends.Row.sale_count r))
        rows = l.
Proof.
  induction l as [|[[p t] n] l IH]; intros prev rows; simpl.
  - intros H. now injection H as <-.
  - unfold Trends.select at 1. simpl.
    destruct (Trends.growth t prev) as [g|e]; simpl; [|discriminate].
    destruct (mapM Trends.select _) as [rest|e] eqn:Er; simpl; intros H; [|discriminate].
    injection H as <-. simpl. f_equal. exact (IH _ _ Er).
Qed.

(** X20. A time-series request with neither [userId] nor [groupId] and
    every metric, and the trend request of the same dates and interval:
    where every sale has one user and both are answered, the two reports
    show the same periods with the same [totalRevenue] and [saleCount]. *)
Theorem time_series_agrees_with_trends db today (q : TimeSeries.query) d1 d2 :
  sales_have_one_user db ->
  JS.truthy (TimeSeries.userId q) = false ->
  JS.truthy (TimeSeries.groupId q) = false ->
  TimeSeries.metric_of q = "all" ->
  TimeSeries.handler db today q = json d1 ->
  Trends.handler db today (trends_of q) = json d2 ->
  map (fun o => (TimeSeries.period o, TimeSeries.totalRevenue o, TimeSeries.saleCount o)) d1
  = map (fun o => (Trends.period o, Some (Trends.totalRevenue o), Some (Trends.saleCount o)))
        d2.
Proof.
  intros Hone Hu Hg Hm H1 H2.
  unfold TimeSeries.handler, TimeSeries.buildFilter in H1. rewrite Hu, Hg in H1.
  apply respond_json in H1 as (rows1 & Hq1 & ->).
  unfold Trends.handler in H2. apply respond_json in H2 as (rows2 & Hq2 & ->).
  apply trends_rows_selected in Hq2 as (u & Hunit & Hq2). cbn [trends_of Trends.interval
    Trends.startDate Trends.endDate] in Hunit, Hq2.
  apply trends_select_lag in Hq2.
  unfold TimeSeries.run_query in Hq1. rewrite Hunit in Hq1.
  cbn [bind mapM TimeSeries.bind_clause TimeSeries.date_param nth_error Nat.sub] in Hq1.
  destruct (mapM TimeSeries.select _) as [selected|e] eqn:Es; cbn [bind] in Hq1;
    [|discriminate].
  injection Hq1 as <-.
  pose (k := fun x : date * option Q * Z =>
               (fst (fst x), Some (JS.parseFloat (snd (fst x))), Some (snd x))).
  transitivity
    (map k (map (fun r => (TimeSeries.Row.period r, TimeSeries.Row.total_revenue r,
                           TimeSeries.Row.sale_count r))
                (order_by (fun a b => asc (TimeSeries.Row.period a) (TimeSeries.Row.period b))
                          selected))).
  { rewrite !map_map. apply map_ext. intros r.
    unfold TimeSeries.responseData, k. rewrite Hm. reflexivity. }
  transitivity
    (map k (map (fun r => (Trends.Row.period r, Trends.Row.total_revenue r,
                           Trends.Row.sale_count r)) rows2));
    [|rewrite !map_map; apply map_ext; intros r; reflexivity].
  f_equal. rewrite Hq2.
  etransitivity;
    [exact (order_by_of_map
              (fun r => (TimeSeries.Row.period r, TimeSeries.Row.total_revenue r,
                         TimeSeries.Row.sale_count r))
              (fun a b => asc (fst (fst a)) (fst (fst b))) selected)|].
  f_equal.
  rewrite (mapM_map TimeSeries.select
             (fun g => Trends.aggregate
                         (fst g, map (fun j : TimeSeries.joined => fst (fst j)) (snd g)))
             (fun r => (TimeSeries.Row.period r, TimeSeries.Row.total_revenue r,
                        TimeSeries.Row.sale_count r))
             time_series_select_common _ Es).
  rewrite <- (time_series_from_sales Hone), filter_of_map, group_by_of_map, map_map.
  f_equal. f_equal. apply filter_ext. intros j. unfold between. simpl.
  now rewrite andb_true_r.
Qed.

Lemma time_series_agrees_with_trends_witness :
  map (fun o => (TimeSeries.period o, TimeSeries.totalRevenue o, TimeSeries.saleCount o))
      [Sample.january]
  = map (fun o => (Trends.period o, Some (Trends.totalRevenue o), Some (Trends.saleCount o)))
        [Sample.january_trend].
Proof.
  apply (@time_series_agrees_with_trends Sample.db Sample.today Sample.late_january
           [Sample.january] [Sample.january_trend]);
    vm_compute; reflexivity.
Defined.

End SideBySide.
